(** * Regina group management: the browser cache manager and the
      notification context, embedded from [src/lib/cache-manager.ts] and
      [src/contexts/NotificationContext.tsx]. *)

From Stdlib Require Import ZArith String List Bool Lia Sorted.
From stdpp Require Import base option gmap strings list fin_maps.

Local Open Scope string_scope.
Local Open Scope Z_scope.

(** ** JavaScript effects: a world, exceptions, try/catch *)

Module JS.

(** JSON data carried by a cache entry: the values that [JSON.stringify]
    and [JSON.parse] hand back unchanged.  [JNull] is JavaScript's [null],
    [JNum] a finite number.  [undefined], [NaN] and the infinities are not
    among them: a value handed to [set] is taken to be JSON data. *)
#[warnings="-register-all"]
Inductive json : Type :=
  | JNull
  | JBool (b : bool)
  | JNum (n : Z)
  | JStr (s : string)
  | JArr (items : list json)
  | JObj (fields : list (string * json)).

Definition is_null (j : json) : bool :=
  match j with JNull => true | _ => false end.

(** [interface CacheEntry<T>] of cache-manager.ts. *)
Record CacheEntry : Type := mkEntry {
  data : json;
  timestamp : Z;
  version : string;
  expiresAt : Z
}.

(** The object [set] builds, and what [JSON.parse] reads back of it.  Its
    [version] is [undefined] and its [expiresAt] is [NaN] when the
    configuration [set] found has neither field; [JSON.stringify] then
    leaves the version out and writes the expiry as [null].  [None] stands
    for the missing version, and for the [NaN] that is read back as
    [null]. *)
Record LooseEntry : Type := mkLoose {
  l_data : json;
  l_timestamp : Z;
  l_version : option string;
  l_expiresAt : option Z
}.

(** An entry with all its fields. *)
Definition complete (e : CacheEntry) : LooseEntry :=
  mkLoose (data e) (timestamp e) (Some (version e)) (Some (expiresAt e)).

(** What a localStorage slot holds is a string.  The model keeps of each
    string what the code can observe of it: whether it is the empty string
    (the only falsy string), whether [JSON.parse] throws on it, or which
    entry [JSON.parse] reads back from it: one with all the fields of
    [CacheEntry], or one whose version is missing or whose expiry is
    [null].  The annotation [const entry: CacheEntry<T> = JSON.parse(item)]
    types every parseable text as an entry, and the model follows the
    annotation for the data and the timestamp. *)
Inductive Text : Type :=
  | EmptyText
  | CorruptText
  | EntryText (e : CacheEntry)
  | LooseText (l : LooseEntry).

Record CustomEvent : Type := mkEvent {
  event_type : string;
  detail_source : string;
  detail_timestamp : Z;
  detail_type : string
}.

(** The part of the browser the cache manager touches. [quotaExceeded]
    says whether the browser refuses writes to localStorage; [hasWindow]
    is [typeof window !== 'undefined']; [dispatched] lists the events
    handed to [window.dispatchEvent], oldest first.  Console output is not
    part of the world. *)
Record World : Type := mkWorld {
  storage : gmap string Text;
  clock : Z;
  quotaExceeded : bool;
  hasWindow : bool;
  dispatched : list CustomEvent
}.

Definition with_storage (s : gmap string Text) (w : World) : World :=
  mkWorld s (clock w) (quotaExceeded w) (hasWindow w) (dispatched w).

Definition with_dispatched (d : list CustomEvent) (w : World) : World :=
  mkWorld (storage w) (clock w) (quotaExceeded w) (hasWindow w) d.

(** The same world at another reading of the clock. *)
Definition at_time (t : Z) (w : World) : World :=
  mkWorld (storage w) t (quotaExceeded w) (hasWindow w) (dispatched w).

Inductive Error : Type :=
  | SyntaxError
  | QuotaExceededError.

Inductive Outcome (A : Type) : Type :=
  | Return (a : A)
  | Throw (e : Error).
Arguments Return {A} a.
Arguments Throw {A} e.

(** A synchronous computation: it reads and changes the world and either
    returns or throws. *)
Definition Comp (A : Type) : Type := World -> Outcome A * World.

Definition ret {A} (a : A) : Comp A := fun w => (Return a, w).
Definition throw {A} (e : Error) : Comp A := fun w => (Throw e, w).
Definition bind {A B} (f : A -> Comp B) (m : Comp A) : Comp B :=
  fun w =>
    match m w with
    | (Return a, w') => f a w'
    | (Throw e, w') => (Throw e, w')
    end.

#[global] Instance Comp_ret : MRet Comp := @ret.
#[global] Instance Comp_bind : MBind Comp := @bind.

(** [try { body } catch (error) { handler }] *)
Definition try_catch {A} (body : Comp A) (handler : Error -> Comp A) : Comp A :=
  fun w =>
    match body w with
    | (Return a, w') => (Return a, w')
    | (Throw e, w') => handler e w'
    end.

(** [xs.forEach(f)] *)
Fixpoint forEach {A} (xs : list A) (f : A -> Comp unit) : Comp unit :=
  match xs with
  | [] => mret tt
  | x :: rest => f x ;; forEach rest f
  end.

Definition Date_now : Comp Z := fun w => (Return (clock w), w).

Definition localStorage_getItem (key : string) : Comp (option Text) :=
  fun w => (Return (storage w !! key), w).

Definition localStorage_setItem (key : string) (value : Text) : Comp unit :=
  fun w =>
    if quotaExceeded w then (Throw QuotaExceededError, w)
    else (Return tt, with_storage (<[key := value]> (storage w)) w).

Definition localStorage_removeItem (key : string) : Comp unit :=
  fun w => (Return tt, with_storage (delete key (storage w)) w).

(** [Object.keys(localStorage)] *)
Definition localStorage_keys : Comp (list string) :=
  fun w => (Return ((map_to_list (storage w)).*1), w).

Definition JSON_stringify (l : LooseEntry) : Text :=
  match l_version l, l_expiresAt l with
  | Some v, Some x => EntryText (mkEntry (l_data l) (l_timestamp l) v x)
  | _, _ => LooseText l
  end.

Definition JSON_parse (t : Text) : Comp LooseEntry :=
  match t with
  | EntryText e => mret (complete e)
  | LooseText l => mret l
  | EmptyText | CorruptText => throw SyntaxError
  end.

(** [Date.now() > entry.expiresAt]: in the comparison a [null] counts as
    0. *)
Definition after_expiry (now : Z) (x : option Z) : bool :=
  now >? default 0 x.

(** Truthiness of what [getItem] returns, a string or [null]: only [null]
    and the empty string are falsy. *)
Definition truthy (item : option Text) : bool :=
  match item with
  | None | Some EmptyText => false
  | Some _ => true
  end.

Definition typeof_window_defined : Comp bool :=
  fun w => (Return (hasWindow w), w).

Definition window_dispatchEvent (ev : CustomEvent) : Comp unit :=
  fun w => (Return tt, with_dispatched (dispatched w ++ [ev])%list w).

End JS.

(** ** cache-manager.ts *)

Module CacheManager.
Import JS.

(** [interface CacheConfig]; its [version] field is [configVersion] here,
    the entry's keeps the name [version]. *)
Record CacheConfig : Type := mkConfig {
  duration : Z;
  configVersion : string
}.

(** [const CACHE_CONFIGS: Record<string, CacheConfig>], as the map of its
    own properties; what it inherits is [Object_prototype] below. *)
Definition CACHE_CONFIGS : gmap string CacheConfig :=
  list_to_map
    [ ("projects", mkConfig (5 * 60 * 1000) "1.0");
      ("dashboard", mkConfig (5 * 60 * 1000) "1.0");
      ("profile", mkConfig (45 * 60 * 1000) "1.1");
      ("adminSettings", mkConfig (30 * 60 * 1000) "1.0");
      ("notifications", mkConfig (2 * 60 * 1000) "1.0");
      ("domainExpiry", mkConfig (1 * 60 * 1000) "1.0") ].

(** The literal [{ duration: 5 * 60 * 1000, version: '1.0' }] that [set]
    and [shouldRefresh] fall back to. *)
Definition DEFAULT_CONFIG : CacheConfig := mkConfig (5 * 60 * 1000) "1.0".

(** [private readonly prefix = 'regina_cache_'] *)
Definition prefix : string := "regina_cache_".

(** The table is an object literal, so a lookup that finds no property of
    its own goes on to [Object.prototype]: these are the names it finds
    there. *)
Definition Object_prototype : list string :=
  [ "constructor"; "hasOwnProperty"; "isPrototypeOf"; "propertyIsEnumerable";
    "toLocaleString"; "toString"; "valueOf"; "__proto__";
    "__defineGetter__"; "__defineSetter__"; "__lookupGetter__";
    "__lookupSetter__" ].

Definition inherited (key : string) : bool :=
  existsb (String.eqb key) Object_prototype.

(** What [CACHE_CONFIGS[key]] evaluates to when it is not [undefined]: a
    configuration of the table, or a member of [Object.prototype], which
    is truthy and has neither a [duration] nor a [version]. *)
Inductive Found : Type :=
  | Own (c : CacheConfig)
  | Member.

(** [config.version] and [config.duration]; [None] is [undefined]. *)
Definition found_version (f : Found) : option string :=
  match f with
  | Own c => Some (configVersion c)
  | Member => None
  end.

Definition found_duration (f : Found) : option Z :=
  match f with
  | Own c => Some (duration c)
  | Member => None
  end.

Section WithConfigs.

(** The configuration table the class is compiled against: the constant
    [CACHE_CONFIGS], or another table after a change of versions. *)
Variable CONFIGS : gmap string CacheConfig.

(** [CACHE_CONFIGS[key]] *)
Definition find_config (key : string) : option Found :=
  match CONFIGS !! key with
  | Some c => Some (Own c)
  | None => if inherited key then Some Member else None
  end.

(** [CACHE_CONFIGS[key] || { duration: 5 * 60 * 1000, version: '1.0' }] *)
Definition config_or_default (key : string) : Found :=
  default (Own DEFAULT_CONFIG) (find_config key).

(** [invalidate(key)]: nothing in its body throws, the catch is idle. *)
Definition invalidate (key : string) : Comp unit :=
  try_catch
    (localStorage_removeItem (prefix +:+ key))
    (fun _ => mret tt).

(** What [clearExpired] does for one key of [Object.keys(localStorage)];
    its counter [cleared] only feeds the log. *)
Definition clearExpired_key (key : string) : Comp unit :=
  if String.prefix prefix key then
    try_catch
      (item ← localStorage_getItem key;
       match item with
       | Some t =>
           if truthy item then
             entry ← JSON_parse t;
             now ← Date_now;
             if after_expiry now (l_expiresAt entry) then localStorage_removeItem key
             else mret tt
           else mret tt
       | None => mret tt
       end)
      (fun _ => localStorage_removeItem key)
  else mret tt.

Definition clearExpired : Comp unit :=
  try_catch
    (keys ← localStorage_keys;
     forEach keys clearExpired_key)
    (fun _ => mret tt).

(** [Date.now() + config.duration] is [NaN] when the duration is
    [undefined]. *)
Definition set (key : string) (d : json) : Comp unit :=
  try_catch
    (let config := config_or_default key in
     t1 ← Date_now;
     t2 ← Date_now;
     let entry :=
       {| l_data := d;
          l_timestamp := t1;
          l_version := found_version config;
          l_expiresAt := Z.add t2 <$> found_duration config |} in
     localStorage_setItem (prefix +:+ key) (JSON_stringify entry))
    (fun _ => clearExpired).

(** [a === b] for two values that are strings or [undefined]. *)
Definition same_version (a b : option string) : bool :=
  match a, b with
  | Some x, Some y => String.eqb x y
  | None, None => true
  | _, _ => false
  end.

(** [config && entry.version !== config.version] *)
Definition version_mismatch (config : option Found) (entry : LooseEntry) : bool :=
  match config with
  | Some f => negb (same_version (l_version entry) (found_version f))
  | None => false
  end.

Definition get (key : string) : Comp json :=
  try_catch
    (item ← localStorage_getItem (prefix +:+ key);
     match item with
     | Some t =>
         if negb (truthy item) then mret JNull
         else
           entry ← JSON_parse t;
           let config := find_config key in
           now ← Date_now;
           if after_expiry now (l_expiresAt entry) then
             invalidate key;; mret JNull
           else if version_mismatch config entry then
             invalidate key;; mret JNull
           else mret (l_data entry)
     | None => mret JNull
     end)
    (fun _ => invalidate key;; mret JNull).

Definition has (key : string) : Comp bool :=
  r ← get key; mret (negb (is_null r)).

(** [getAge(key): number | null] *)
Definition getAge (key : string) : Comp (option Z) :=
  try_catch
    (item ← localStorage_getItem (prefix +:+ key);
     match item with
     | Some t =>
         if negb (truthy item) then mret None
         else
           entry ← JSON_parse t;
           now ← Date_now;
           mret (Some (now - l_timestamp entry))
     | None => mret None
     end)
    (fun _ => mret None).

(** [age > config.duration / 2] compares an integer with a real quotient;
    for an integer [age] that is the comparison with the floor of the
    quotient, see [exceeds_half].  With a duration that is [undefined] the
    quotient is [NaN], and every comparison with it is false. *)
Definition shouldRefresh (key : string) : Comp bool :=
  age ← getAge key;
  match age with
  | None => mret true
  | Some a =>
      let config := config_or_default key in
      mret match found_duration config with
           | Some d => a >? d / 2
           | None => false
           end
  end.

Definition domainDataChanged (now : Z) : CustomEvent :=
  {| event_type := "domainDataChanged";
     detail_source := "cache-manager";
     detail_timestamp := now;
     detail_type := "cache-invalidation" |}.

Definition invalidateDomainCaches : Comp unit :=
  try_catch
    (invalidate "projects";;
     invalidate "dashboard";;
     invalidate "notifications";;
     invalidate "domainExpiry";;
     invalidate "notification-domain-expiry";;
     invalidate "notification-counts";;
     invalidate "message-counts";;
     win ← typeof_window_defined;
     if (win : bool) then
       now ← Date_now;
       window_dispatchEvent (domainDataChanged now)
     else mret tt)
    (fun _ => mret tt).

Definition invalidateOnDataChange (tableName operation : string) : Comp unit :=
  if String.eqb tableName "domains" then invalidateDomainCaches
  else if String.eqb tableName "projects" then
    invalidate "projects";; invalidate "dashboard"
  else if String.eqb tableName "notifications" then
    invalidate "notifications";; invalidate "domainExpiry"
  else
    invalidate "projects";; invalidate "dashboard".

Definition clearAll : Comp unit :=
  try_catch
    (keys ← localStorage_keys;
     forEach keys (fun key : string =>
       if String.prefix prefix key then localStorage_removeItem key
       else mret tt))
    (fun _ => mret tt).

End WithConfigs.

(** *** Vocabulary of the statements about the cache manager *)

(** The storage after [invalidate key]. *)
Definition without (key : string) (w : World) : World :=
  with_storage (delete (prefix +:+ key) (storage w)) w.

(** The text [set] writes for [key] when the clock reads [t]. *)
Definition stored_text (cfg : gmap string CacheConfig) (key : string) (d : json) (t : Z) : Text :=
  JSON_stringify
    {| l_data := d;
       l_timestamp := t;
       l_version := found_version (config_or_default cfg key);
       l_expiresAt := Z.add t <$> found_duration (config_or_default cfg key) |}.

(** A world whose only slot is the one of [key], holding [t]. *)
Definition one_slot (key : string) (t : Text) (now : Z) : World :=
  mkWorld {[ prefix +:+ key := t ]} now false true [].

(** What [clearExpired] removes: a prefixed slot whose text [JSON.parse]
    rejects, or whose entry has expired; an empty string is skipped. *)
Definition stale (now : Z) (t : Text) : bool :=
  match t with
  | EmptyText => false
  | CorruptText => true
  | EntryText e => expiresAt e <? now
  | LooseText l => default 0 (l_expiresAt l) <? now
  end.

Definition swept (key : string) (w : World) : bool :=
  String.prefix prefix key &&
  match storage w !! key with
  | Some t => stale (clock w) t
  | None => false
  end.

(** The call returns, the slots of [a] and [b] are gone, every other slot,
    cache entry or not, holds what it held, and nothing else of the world
    has changed. *)
Definition removes_exactly (a b : string) (run : Outcome unit * World) (w : World) : Prop :=
  run = (Return tt, without b (without a w)) /\
  storage run.2 !! (prefix +:+ a) = None /\
  storage run.2 !! (prefix +:+ b) = None /\
  (forall j : string,
     j <> prefix +:+ a -> j <> prefix +:+ b ->
     storage run.2 !! j = storage w !! j) /\
  (forall j : string,
     String.prefix prefix j = false -> storage run.2 !! j = storage w !! j) /\
  dispatched run.2 = dispatched w.

(** The keys [invalidateDomainCaches] invalidates, in its order. *)
Definition DOMAIN_CACHE_KEYS : list string :=
  [ "projects"; "dashboard"; "notifications"; "domainExpiry";
    "notification-domain-expiry"; "notification-counts"; "message-counts" ].

End CacheManager.

(** ** NotificationContext.tsx, the provider with the domain and comment
       subscriptions *)

Module NotificationContext.

(** [interface CommentNotification].  [oid] is the identity of the
    JavaScript object: two records with the same [oid] are one object, and
    a spread [{ ...comment }] is a new object with the same fields.  The
    source's field [user] is [author] here, next to the provider's [user];
    the constant [type: 'comment'] and the unused optional [title] are
    left out. *)
Record CommentNotification : Type := mkComment {
  oid : nat;
  id : string;
  text : string;
  author : string;
  userId : string;
  projectId : string;
  projectName : string;
  timestamp : string
}.

(** [{ ...comment }], allocated as object [o]. *)
Definition spread (comment : CommentNotification) (o : nat) : CommentNotification :=
  mkComment o (id comment) (text comment) (author comment) (userId comment)
    (projectId comment) (projectName comment) (timestamp comment).

(** The callbacks a timer or a handler can call. *)
Inductive Loader : Type :=
  | loadDomainExpiryData
  | loadNotificationAndMessageCounts
  | loadCommentNotifications.

#[global] Instance Loader_eq_dec : EqDecision Loader.
Proof. solve_decision. Defined.

(** The four handlers that [setupSubscriptions] registers. *)
Inductive Handler : Type :=
  | domainSubscription
  | notificationSubscription
  | messageSubscription
  | commentSubscription.

(** The table a handler listens to. *)
Definition table (h : Handler) : string :=
  match h with
  | domainSubscription => "domains"
  | notificationSubscription => "notifications"
  | messageSubscription => "messages"
  | commentSubscription => "notifications"
  end.

(** A registered handler is a closure: it holds the value [isSaving] had
    in the render whose effect registered it. *)
Record Subscription : Type := mkSubscription {
  handler : Handler;
  closure_isSaving : bool
}.

(** A pending [setTimeout] callback. *)
Record Timer : Type := mkTimer {
  due : Z;
  callback : Loader
}.

(** What a handler reads of its payload: [payload.eventType],
    [payload.new?.type] and [payload.old?.type]. *)
Record Payload : Type := mkPayload {
  eventType : string;
  new_type : option string;
  old_type : option string
}.

(** The provider: its React state, the handlers and timers its effects
    have registered, and the browser underneath.  [loads] records each call
    of a loader with the clock reading of the call, oldest first;
    [next_oid] is the next unused object identity. *)
Record Provider : Type := mkProvider {
  user : option string;
  isSaving : bool;
  commentNotifications : list CommentNotification;
  unreadCommentCount : Z;
  subscriptions : list Subscription;
  timers : list Timer;
  loads : list (Loader * Z);
  next_oid : nat;
  browser : JS.World
}.

Definition setIsSaving (b : bool) (p : Provider) : Provider :=
  mkProvider (user p) b (commentNotifications p) (unreadCommentCount p)
    (subscriptions p) (timers p) (loads p) (next_oid p) (browser p).

Definition with_user (u : option string) (p : Provider) : Provider :=
  mkProvider u (isSaving p) (commentNotifications p) (unreadCommentCount p)
    (subscriptions p) (timers p) (loads p) (next_oid p) (browser p).

Definition with_subscriptions (s : list Subscription) (p : Provider) : Provider :=
  mkProvider (user p) (isSaving p) (commentNotifications p) (unreadCommentCount p)
    s (timers p) (loads p) (next_oid p) (browser p).

Definition with_timers (t : list Timer) (p : Provider) : Provider :=
  mkProvider (user p) (isSaving p) (commentNotifications p) (unreadCommentCount p)
    (subscriptions p) t (loads p) (next_oid p) (browser p).

Definition with_loads (l : list (Loader * Z)) (p : Provider) : Provider :=
  mkProvider (user p) (isSaving p) (commentNotifications p) (unreadCommentCount p)
    (subscriptions p) (timers p) l (next_oid p) (browser p).

Definition with_browser (w : JS.World) (p : Provider) : Provider :=
  mkProvider (user p) (isSaving p) (commentNotifications p) (unreadCommentCount p)
    (subscriptions p) (timers p) (loads p) (next_oid p) w.

Definition now (p : Provider) : Z := JS.clock (browser p).

Definition markSaveStart (p : Provider) : Provider := setIsSaving true p.

Definition markSaveEnd (p : Provider) : Provider := setIsSaving false p.

(** A call of a loader at clock reading [t].  What the loader then reads
    from the cache and the backend is outside the model. *)
Definition call (l : Loader) (t : Z) (p : Provider) : Provider :=
  with_loads (loads p ++ [(l, t)])%list p.

(** [setTimeout(() => { l() }, delay)].  The function a handler returns,
    [() => clearTimeout(timeoutId)], goes to the channel, which does not
    call it: nothing in the provider cancels a timer. *)
Definition setTimeout (l : Loader) (delay : Z) (p : Provider) : Provider :=
  with_timers (timers p ++ [mkTimer (now p + delay) l])%list p.

(** [payload.new?.type === 'comment' || payload.old?.type === 'comment'
     || payload.eventType === 'INSERT'] *)
Definition comment_related (payload : Payload) : bool :=
  match new_type payload with Some t => String.eqb t "comment" | None => false end
  || match old_type payload with Some t => String.eqb t "comment" | None => false end
  || String.eqb (eventType payload) "INSERT".

(** The body of a registered handler, run on a payload. *)
Definition handle (s : Subscription) (payload : Payload) (p : Provider) : Provider :=
  match handler s with
  | domainSubscription =>
      if closure_isSaving s then p
      else setTimeout loadDomainExpiryData 1000 p
  | notificationSubscription => call loadNotificationAndMessageCounts (now p) p
  | messageSubscription => call loadNotificationAndMessageCounts (now p) p
  | commentSubscription =>
      if closure_isSaving s then p
      else if comment_related payload then setTimeout loadCommentNotifications 1000 p
      else p
  end.

(** A change of a row of [tableName] that the server pushes to this
    client: every handler registered for the table runs. *)
Definition postgres_changes (tableName : string) (payload : Payload) (p : Provider) : Provider :=
  fold_left
    (fun q s => if String.eqb (table (handler s)) tableName then handle s payload q else q)
    (subscriptions p) p.

(** [refreshAllData]: the three loaders of [Promise.all]. *)
Definition refreshAllData (p : Provider) : Provider :=
  call loadCommentNotifications (now p)
    (call loadNotificationAndMessageCounts (now p)
       (call loadDomainExpiryData (now p) p)).

(** The effect 'Set up real-time subscriptions'.  Its dependencies are
    [user] and the three loaders, which change with [user] only; [isSaving]
    is not among them.  It returns no cleanup ([setupSubscriptions] is
    async and its result is dropped), so what it registered stays. *)
Definition setupSubscriptions (p : Provider) : Provider :=
  match user p with
  | None => p
  | Some _ =>
      with_subscriptions
        (subscriptions p ++
           [ mkSubscription domainSubscription (isSaving p);
             mkSubscription notificationSubscription (isSaving p);
             mkSubscription messageSubscription (isSaving p);
             mkSubscription commentSubscription (isSaving p) ])%list
        p
  end.

(** The first render and its effects. *)
Definition mount (u : option string) (w : JS.World) : Provider :=
  setupSubscriptions
    (refreshAllData (mkProvider u false [] 0 [] [] [] 0%nat w)).

(** A render with another [user]: the effects that depend on it run
    again. *)
Definition setUser (u : option string) (p : Provider) : Provider :=
  setupSubscriptions (refreshAllData (with_user u p)).

(** Time passes until the clock reads [t]: the timers due by then fire, in
    the order they were set, each at its due time. *)
Definition advance (t : Z) (p : Provider) : Provider :=
  let fired := filter (fun tm => bool_decide (due tm <= t)) (timers p) in
  let pending := filter (fun tm => bool_decide (~ due tm <= t)) (timers p) in
  fold_left (fun q tm => call (callback tm) (due tm) q) fired
    (with_timers pending (with_browser (JS.at_time (Z.max t (now p)) (browser p)) p)).

(** [prev.map(comment => comment.id === commentId ? { ...comment } : comment)],
    with the objects the spreads allocate from [next] on. *)
Fixpoint copy_matching (commentId : string) (prev : list CommentNotification) (next : nat)
    : list CommentNotification * nat :=
  match prev with
  | [] => ([], next)
  | comment :: rest =>
      if String.eqb (id comment) commentId then
        let '(rest', next') := copy_matching commentId rest (S next) in
        (spread comment next :: rest', next')
      else
        let '(rest', next') := copy_matching commentId rest next in
        (comment :: rest', next')
  end.

(** [markCommentAsRead(commentId)], taken from the moment the backend
    update has answered, with [error] or without: the state updaters are
    functional, so they read the state of that moment. *)
Definition markCommentAsRead (commentId : string) (error : bool) (p : Provider) : Provider :=
  match user p with
  | None => p
  | Some _ =>
      if error then p
      else
        let '(comments, next) :=
          copy_matching commentId (commentNotifications p) (next_oid p) in
        mkProvider (user p) (isSaving p)
          comments
          (Z.max 0 (unreadCommentCount p - 1))
          (subscriptions p) (timers p) (loads p) next
          (CacheManager.invalidate "comment-notifications" (browser p)).2
  end.

(** *** The sibling provider, first in the file, with the comment
        subscription only *)

(** Its subscription effect lists [isSaving] among its dependencies and
    returns the cleanup that unsubscribes: a render with another [user] or
    another [isSaving] replaces the handler by one that holds the new
    value. *)
Definition sibling_effect (p : Provider) : Provider :=
  with_subscriptions
    match user p with
    | None => []
    | Some _ => [mkSubscription commentSubscription (isSaving p)]
    end
    p.

Definition sibling_markSaveStart (p : Provider) : Provider :=
  sibling_effect (markSaveStart p).

Definition sibling_markSaveEnd (p : Provider) : Provider :=
  sibling_effect (markSaveEnd p).

(** *** Vocabulary of the statements about the provider *)

(** Two records with the same fields, whatever object each is. *)
Definition same_fields (a b : CommentNotification) : Prop :=
  spread a 0%nat = spread b 0%nat.

(** The calls of loader [l] among [loads]. *)
Definition loads_of (l : Loader) (p : Provider) : list Z :=
  omap (fun '(l', t) => if decide (l' = l) then Some t else None) (loads p).

(** A browser with an empty store whose clock reads 0. *)
Definition fresh_browser : JS.World := JS.mkWorld ∅ 0 false true [].

(** The provider of user 'u1' after its first render. *)
Definition mounted : Provider := mount (Some "u1") fresh_browser.

Definition UPDATE : Payload := mkPayload "UPDATE" None None.

Definition INSERT_comment : Payload := mkPayload "INSERT" (Some "comment") None.

Definition comment_a : CommentNotification :=
  mkComment 0 "a" "first" "Ann" "u2" "p1" "Site" "2025-01-01T10:00:00Z".

Definition comment_b : CommentNotification :=
  mkComment 1 "b" "second" "Bob" "u3" "p1" "Site" "2025-01-01T11:00:00Z".

(** A provider of user 'u1' that shows two comments and counts none
    unread. *)
Definition two_comments : Provider :=
  mkProvider (Some "u1") false [comment_a; comment_b] 0 [] [] [] 2%nat fresh_browser.

End NotificationContext.

(** ** cache-manager.ts, the remaining methods *)

Module CacheManagerRest.
Import JS CacheManager.

(** Truthiness of a cached value, as [if (existing)] tests it: [null],
    [false], [0] and the empty string are falsy, every array and object is
    truthy. *)
Definition truthy_json (j : json) : bool :=
  match j with
  | JNull => false
  | JBool b => b
  | JNum n => negb (n =? 0)
  | JStr s => negb (String.eqb s "")
  | JArr _ | JObj _ => true
  end.

Section WithConfigs.

Variable CONFIGS : gmap string CacheConfig.

(** [preWarm(key, fetcher)].  [fetcher] stands for the awaited call: what
    it returns or throws, and whatever happens to the world until it has
    answered. *)
Definition preWarm (key : string) (fetcher : Comp json) : Comp unit :=
  try_catch
    (existing ← get CONFIGS key;
     if truthy_json existing then mret tt
     else
       d ← fetcher;
       set CONFIGS key d)
    (fun _ => mret tt).

(** [isFresh(key, freshnessThreshold = 5 * 60 * 1000)] *)
Definition isFresh (key : string) (freshnessThreshold : Z) : Comp bool :=
  age ← getAge key;
  mret match age with
       | Some a => a <? freshnessThreshold
       | None => false
       end.

End WithConfigs.

(** The value [get] hands to its caller. *)
Definition read (cfg : gmap string CacheConfig) (key : string) (w : World) : Outcome json :=
  (get cfg key w).1.

End CacheManagerRest.

(** ** NotificationContext.tsx, the remaining actions and the comment
       rows *)

Module NotificationContextRest.
Import NotificationContext.

(** [prev.map(comment => ({ ...comment }))], with the objects the spreads
    allocate from [next] on. *)
Fixpoint copy_all (prev : list CommentNotification) (next : nat)
    : list CommentNotification * nat :=
  match prev with
  | [] => ([], next)
  | comment :: rest =>
      let '(rest', next') := copy_all rest (S next) in
      (spread comment next :: rest', next')
  end.

(** [clearAllComments()], taken from the moment the backend update has
    answered, with [error] or without. *)
Definition clearAllComments (error : bool) (p : Provider) : Provider :=
  match user p with
  | None => p
  | Some _ =>
      if error then p
      else
        let '(comments, next) := copy_all (commentNotifications p) (next_oid p) in
        mkProvider (user p) (isSaving p)
          comments
          0
          (subscriptions p) (timers p) (loads p) next
          (CacheManager.invalidate "comment-notifications" (browser p)).2
  end.

(** The provider's [CACHE_KEYS], in the order [clearCacheAndRefresh]
    invalidates them. *)
Definition CACHE_KEYS : list string :=
  [ "notification-domain-expiry"; "notification-counts"; "message-counts";
    "comment-notifications" ].

(** [clearCacheAndRefresh()], up to the calls of the three loaders. *)
Definition clearCacheAndRefresh (p : Provider) : Provider :=
  refreshAllData
    (with_browser
       (CacheManager.invalidate "comment-notifications"
          (CacheManager.invalidate "message-counts"
             (CacheManager.invalidate "notification-counts"
                (CacheManager.invalidate "notification-domain-expiry" (browser p)).2).2).2).2
       p).

(** The joined rows a notification row arrives with; a column that is
    null is [None]. *)
Record CommentJoin : Type := mkCommentJoin {
  comment_content : option string;
  comment_user_id : option string;
  comment_project_id : option string
}.

Record ProfileJoin : Type := mkProfileJoin {
  full_name : option string;
  email : option string
}.

Record ProjectJoin : Type := mkProjectJoin {
  name : option string
}.

(** A row of the query of [loadCommentNotifications]. *)
Record NotificationRow : Type := mkRow {
  row_id : string;
  title : option string;
  content : option string;
  is_read : bool;
  created_at : string;
  user_id : option string;
  project_id : option string;
  comments : option CommentJoin;
  profiles : option ProfileJoin;
  projects : option ProjectJoin
}.

(** [a || b] on nullable strings: [a] when it is neither null nor empty,
    [b] otherwise. *)
Definition or_else (a b : option string) : option string :=
  match a with
  | Some s => if String.eqb s "" then b else a
  | None => b
  end.

(** The string a chain [a || ... || 'literal'] ends in. *)
Definition text_of (o : option string) : string := default "" o.

(** [join?.field] *)
Definition via {J : Type} (join : option J) (field : J -> option string) : option string :=
  join ≫= field.

(** The body of the [map] callback, building object [o]. *)
Definition process (notification : NotificationRow) (o : nat) : CommentNotification :=
  let comment := comments notification in
  let author := profiles notification in
  let project := projects notification in
  {| oid := o;
     id := row_id notification;
     text := text_of (or_else (content notification)
                       (or_else (title notification)
                          (or_else (via comment comment_content) (Some "New comment"))));
     NotificationContext.author :=
       text_of (or_else (via author full_name)
                  (or_else (via author email) (Some "Unknown User")));
     userId := text_of (or_else (user_id notification)
                         (or_else (via comment comment_user_id) (Some "")));
     projectId := text_of (or_else (project_id notification)
                            (or_else (via comment comment_project_id) (Some "")));
     projectName := text_of (or_else (via project name) (Some "Unknown Project"));
     timestamp := created_at notification |}.

(** [(notifications || []).map(notification => ...)] *)
Fixpoint processedComments (notifications : list NotificationRow) (next : nat)
    : list CommentNotification :=
  match notifications with
  | [] => []
  | notification :: rest => process notification next :: processedComments rest (S next)
  end.

(** [!notifications?.find(n => n.id === comment.id)?.is_read] *)
Definition counts_unread (notifications : list NotificationRow) (comment : CommentNotification) : bool :=
  match find (fun n => String.eqb (row_id n) (id comment)) notifications with
  | Some n => negb (is_read n)
  | None => true
  end.

(** [processedComments.filter(comment => ...).length] *)
Definition unreadCount (notifications : list NotificationRow) (next : nat) : nat :=
  length (filter (fun comment => counts_unread notifications comment = true)
                 (processedComments notifications next)).

(** *** Vocabulary of the statements *)

(** A nullable string that [||] takes: neither null nor empty. *)
Definition taken (o : option string) : Prop :=
  exists s : string, o = Some s /\ s <> "".

#[global] Instance Handler_eq_dec : EqDecision Handler.
Proof. solve_decision. Defined.

(** How many registered handlers are of kind [h]. *)
Definition listeners (h : Handler) (p : Provider) : nat :=
  length (filter (fun s => handler s = h) (subscriptions p)).

(** Rows for examples: one read, one unread. *)
Definition row_read : NotificationRow :=
  mkRow "n1" None (Some "") true "2025-01-01T10:00:00Z" None None None None None.

Definition row_unread : NotificationRow :=
  mkRow "n2" (Some "Title") None false "2025-01-01T11:00:00Z" (Some "u2") None None None None.

End NotificationContextRest.

(** ** NotificationDropdown.tsx *)

Module NotificationDropdown.

(** [interface Notification].  [created_at] is the instant
    [new Date(created_at).getTime()] of the stored date, in milliseconds;
    the optional [project_id] and [comment_id], which the component never
    reads, are left out. *)
Record Notification : Type := mkNotification {
  id : string;
  user_id : string;
  type : string;
  title : string;
  content : string;
  link : option string;
  is_read : bool;
  created_at : Z
}.

(** [{ ...notification, is_read: true }] *)
Definition read_copy (notification : Notification) : Notification :=
  mkNotification (id notification) (user_id notification) (type notification)
    (title notification) (content notification) (link notification)
    true (created_at notification).

(** The component state the actions change. *)
Record Dropdown : Type := mkDropdown {
  notifications : list Notification;
  totalCount : Z
}.

(** [notifications.filter(n => !n.is_read).length] *)
Definition unreadCount (d : Dropdown) : nat :=
  length (filter (fun n => is_read n = false) (notifications d)).

(** [markAsRead(notificationId)], from the moment the backend update has
    answered, with [error] or without. *)
Definition markAsRead (notificationId : string) (error : bool) (d : Dropdown) : Dropdown :=
  if error then d
  else
    mkDropdown
      (map (fun notification =>
              if String.eqb (id notification) notificationId
              then read_copy notification
              else notification)
           (notifications d))
      (totalCount d).

(** [deleteNotification(notificationId)], likewise. *)
Definition deleteNotification (notificationId : string) (error : bool) (d : Dropdown) : Dropdown :=
  if error then d
  else
    mkDropdown
      (filter (fun notification => id notification <> notificationId) (notifications d))
      (totalCount d - 1).

(** [dismissAll()], likewise; [signed_in] is [user] being set. *)
Definition dismissAll (signed_in error : bool) (d : Dropdown) : Dropdown :=
  if negb signed_in then d
  else if error then d
  else mkDropdown (map read_copy (notifications d)) (totalCount d).

(** The comparator of [loadNotifications], in the component without the
    domain-expiry ordering. *)
Definition compare (a b : Notification) : Z :=
  if String.eqb (type a) "comment" && negb (String.eqb (type b) "comment") then -1
  else if negb (String.eqb (type a) "comment") && String.eqb (type b) "comment" then 1
  else created_at b - created_at a.

(** [Array.prototype.sort] is stable and, for a comparator that is a
    consistent ordering, returns the one stable arrangement in that order;
    insertion from the right computes that arrangement. *)
Fixpoint insert (x : Notification) (sorted : list Notification) : list Notification :=
  match sorted with
  | [] => [x]
  | y :: rest => if compare x y <=? 0 then x :: y :: rest else y :: insert x rest
  end.

Definition sort (data : list Notification) : list Notification :=
  foldr insert [] data.

(** *** Vocabulary of the statements *)

Definition is_comment (n : Notification) : bool := String.eqb (type n) "comment".

(** [a] may stand before [b]: a comment before anything, and within
    comments, or within the rest, the newer first. *)
Definition before (a b : Notification) : Prop :=
  (is_comment b = true -> is_comment a = true) /\
  (is_comment a = is_comment b -> created_at b <= created_at a).

Definition older_comment : Notification :=
  mkNotification "n1" "u1" "comment" "Comment" "hello" None false 100.

Definition newer_expiry : Notification :=
  mkNotification "n2" "u1" "domain_expiry" "Domain" "will expire in 15 days" None false 200.

End NotificationDropdown.

(** ** The auth provider's profile loading (in theme.tsx) *)

Module Auth.
Import JS CacheManager CacheManagerRest.

(** [s.includes(needle)] *)
Fixpoint includes (needle s : string) : bool :=
  String.prefix needle s ||
  match s with
  | EmptyString => false
  | String _ rest => includes needle rest
  end.

(** [error.message.includes('timeout') || ... || ...includes('network')] *)
Definition isTransientError (message : string) : bool :=
  includes "timeout" message || includes "connection" message ||
  includes "fetch" message || includes "network" message.

Definition maxRetries : nat := 2.

(** [Math.min(500 * Math.pow(2, retryCount), 2000)] *)
Definition retryDelay (retryCount : nat) : Z :=
  Z.min (500 * 2 ^ Z.of_nat retryCount) 2000.

(** [j[name]] for a parsed JSON value: the last of the fields of that name
    of an object, undefined for anything else. *)
Definition field (name : string) (j : json) : option json :=
  match j with
  | JObj fields => snd <$> find (fun kv => String.eqb (fst kv) name) (rev fields)
  | _ => None
  end.

(** [cached.id === userId] *)
Definition has_id (userId : string) (cached : json) : bool :=
  match field "id" cached with
  | Some (JStr s) => String.eqb s userId
  | _ => false
  end.

(** [isCacheValid] of [loadProfileWithCache]: ten minutes at most. *)
Definition isCacheValid (cachedProfile : json) (userId : string) (cacheAge : option Z) : bool :=
  truthy_json cachedProfile && has_id userId cachedProfile &&
  match cacheAge with
  | Some age => age <? 10 * 60 * 1000
  | None => false
  end.

(** What the awaited profile query comes back with: [{ data, error: null }]
    (with [data] null when no row matched), [{ error }] with its code and
    message, or an exception with its name and message. *)
Inductive Answer : Type :=
  | Data (data : json)
  | Failed (code message : string)
  | Rejected (name message : string).

(** The message of the error that reaches the outer [catch], if any. *)
Definition failure (a : Answer) : option string :=
  match a with
  | Data d => if truthy_json d then None else Some "No profile data received"
  | Failed code message =>
      if String.eqb code "PGRST116" then Some "Profile not found - please contact support"
      else if String.eqb code "PGRST301" then Some "Unable to connect to database"
      else if String.eqb code "42501" then Some "Insufficient permissions to load profile"
      else Some message
  | Rejected name message =>
      if String.eqb name "AbortError" then Some "Profile load timeout"
      else Some message
  end.

(** The provider state the loader touches, the browser underneath, and a
    record of what the loader did: the number of profile queries sent and
    the time spent waiting before retries. *)
Record AuthState : Type := mkAuth {
  profile : option json;
  world : World;
  queries : nat;
  waited : Z
}.

(** How the promise of the loader settles. *)
Inductive Settled : Type :=
  | Resolved
  | RejectedWith (message : string).

(** The backend, as the loader meets it: the answer to the query of each
    attempt, and the time the answer takes. *)
Definition Backend : Type := nat -> Answer * Z.

(** [loadProfileWithCache(userId, retryCount)], with [left] standing for
    [maxRetries - retryCount], so that [retryCount < maxRetries] is [left]
    being a successor.  The abort timer is left out: its controller is
    handed to nobody, so it stops nothing.  A retry starts when its delay
    has passed; nothing else touches the store meanwhile. *)
Fixpoint attempt (backend : Backend) (userId : string) (left retryCount : nat)
    (st : AuthState) : Settled * AuthState :=
  let '(cached, w1) := get CACHE_CONFIGS "profile" (world st) in
  let cachedProfile := match cached with Return r => r | Throw _ => JNull end in
  let '(age, w2) := getAge "profile" w1 in
  let cacheAge := match age with Return a => a | Throw _ => None end in
  if isCacheValid cachedProfile userId cacheAge then
    (Resolved, mkAuth (Some cachedProfile) w2 (queries st) (waited st))
  else
    let '(answer, took) := backend retryCount in
    let w3 := at_time (clock w2 + took) w2 in
    match failure answer with
    | None =>
        let data := match answer with Data d => d | _ => JNull end in
        (Resolved,
         mkAuth (Some data) (set CACHE_CONFIGS "profile" data w3).2
           (S (queries st)) (waited st))
    | Some message =>
        let fallback (_ : unit) :=
          let '(fallbackCache, w4) := get CACHE_CONFIGS "profile" w3 in
          let fallbackProfile :=
            match fallbackCache with Return r => r | Throw _ => JNull end in
          if truthy_json fallbackProfile && has_id userId fallbackProfile then
            (Resolved, mkAuth (Some fallbackProfile) w4 (S (queries st)) (waited st))
          else
            (RejectedWith message, mkAuth (profile st) w4 (S (queries st)) (waited st)) in
        match left with
        | S left' =>
            if isTransientError message then
              attempt backend userId left' (S retryCount)
                (mkAuth (profile st)
                   (at_time (clock w3 + retryDelay retryCount) w3)
                   (S (queries st))
                   (waited st + retryDelay retryCount))
            else fallback tt
        | O => fallback tt
        end
    end.

Definition loadProfileWithCache (backend : Backend) (userId : string) (retryCount : nat)
    (st : AuthState) : Settled * AuthState :=
  attempt backend userId (maxRetries - retryCount) retryCount st.

(** The tail of [signOut]: the profile and every cached entry go, and so
    do the two status slots. *)
Definition signOut_cleanup (st : AuthState) : AuthState :=
  mkAuth None
    (localStorage_removeItem "regina_session_id"
       (localStorage_removeItem "regina_online_status"
          (clearAll (invalidate "profile" (world st)).2).2).2).2
    (queries st) (waited st).

(** *** Vocabulary of the statements *)

(** A profile object of user 'u1'. *)
Definition profile_u1 : json :=
  JObj [("id", JStr "u1"); ("email", JStr "u1@example.org")].

(** A backend that answers every query with [a], after 100 ms. *)
Definition always (a : Answer) : Backend := fun _ => (a, 100).

(** The bound on the time spent waiting by [left] retries from
    [retryCount] on. *)
Fixpoint delays (left retryCount : nat) : Z :=
  match left with
  | O => 0
  | S left' => retryDelay retryCount + delays left' (S retryCount)
  end.

Definition signed_out : AuthState := mkAuth None (mkWorld ∅ 0 false true []) 0 0.

(** The state after a profile of 'u1' was stored at 0 and five minutes
    have passed. *)
Definition cached_u1 : AuthState :=
  mkAuth None
    (at_time (5 * 60 * 1000)
       (set CACHE_CONFIGS "profile" profile_u1 (mkWorld ∅ 0 false true [])).2)
    0 0.

End Auth.

(** ** Properties of the cache manager *)

Module CacheManagerProofs.
Import JS CacheManager.

Ltac js_unfold :=
  cbv [mbind mret Comp_bind Comp_ret bind ret throw try_catch
       Date_now localStorage_getItem localStorage_setItem
       localStorage_removeItem JSON_parse JSON_stringify
       typeof_window_defined window_dispatchEvent].

Lemma invalidate_run key w :
  invalidate key w = (Return tt, without key w).
Proof. reflexivity. Qed.

Lemma set_accepted cfg key d w :
  quotaExceeded w = false ->
  set cfg key d w =
    (Return tt,
     with_storage (<[prefix +:+ key := stored_text cfg key d (clock w)]> (storage w)) w).
Proof.
  intros Hq. unfold set, stored_text.
  cbv [mbind mret Comp_bind Comp_ret bind ret throw try_catch
       Date_now localStorage_setItem].
  rewrite Hq. reflexivity.
Qed.

(** For a key that names no member of [Object.prototype] the lookup is
    the lookup among the table's own properties. *)
Lemma find_config_plain (cfg : gmap string CacheConfig) (key : string) :
  inherited key = false -> find_config cfg key = Own <$> cfg !! key.
Proof.
  intros Hk. unfold find_config. rewrite Hk.
  destruct (cfg !! key); reflexivity.
Qed.

Lemma config_or_default_plain (cfg : gmap string CacheConfig) (key : string) :
  inherited key = false ->
  config_or_default cfg key = Own (default DEFAULT_CONFIG (cfg !! key)).
Proof.
  intros Hk. unfold config_or_default. rewrite (find_config_plain _ _ Hk).
  destruct (cfg !! key); reflexivity.
Qed.



(** The text [set] writes under a configuration. *)
Lemma stored_text_found (cfg : gmap string CacheConfig) (key : string) (c : CacheConfig)
    (d : json) (t : Z) :
  config_or_default cfg key = Own c ->
  stored_text cfg key d t = EntryText (mkEntry d t (configVersion c) (t + duration c)).
Proof. intros Hc. unfold stored_text. rewrite Hc. reflexivity. Qed.

(** The text [set] writes for a key that only [Object.prototype] knows. *)
Lemma stored_text_member (cfg : gmap string CacheConfig) (key : string) (d : json) (t : Z) :
  cfg !! key = None -> inherited key = true ->
  stored_text cfg key d t = LooseText (mkLoose d t None None).
Proof.
  intros Hc Hk. unfold stored_text, config_or_default, find_config.
  rewrite Hc, Hk. reflexivity.
Qed.

Lemma set_refused cfg key d w :
  quotaExceeded w = true ->
  set cfg key d w = clearExpired w.
Proof.
  intros Hq. unfold set. js_unfold. rewrite Hq. reflexivity.
Qed.

(** [get], read off by the cases of what the slot holds. *)
Lemma get_cases cfg key w :
  get cfg key w =
    match storage w !! (prefix +:+ key) with
    | None | Some EmptyText => (Return JNull, w)
    | Some CorruptText => (Return JNull, without key w)
    | Some (EntryText e) =>
        if (expiresAt e <? clock w) || version_mismatch (find_config cfg key) (complete e)
        then (Return JNull, without key w)
        else (Return (data e), w)
    | Some (LooseText l) =>
        if (default 0 (l_expiresAt l) <? clock w) || version_mismatch (find_config cfg key) l
        then (Return JNull, without key w)
        else (Return (l_data l), w)
    end.
Proof.
  unfold get, invalidate, after_expiry. js_unfold.
  destruct (storage w !! (prefix +:+ key)) as [[| |e|l]|]; simpl; try reflexivity.
  - rewrite Z.gtb_ltb.
    destruct (expiresAt e <? clock w); simpl; [reflexivity|].
    destruct (version_mismatch (find_config cfg key) (complete e)); reflexivity.
  - rewrite Z.gtb_ltb.
    destruct (default 0 (l_expiresAt l) <? clock w); simpl; [reflexivity|].
    destruct (version_mismatch (find_config cfg key) l); reflexivity.
Qed.

Lemma version_mismatch_false (cfg : gmap string CacheConfig) (key : string) e :
  inherited key = false ->
  version_mismatch (find_config cfg key) (complete e) = false <->
  (forall c, cfg !! key = Some c -> configVersion c = version e).
Proof.
  intros Hk. rewrite (find_config_plain _ _ Hk).
  unfold version_mismatch. destruct (cfg !! key) as [c|]; simpl.
  - rewrite negb_false_iff, String.eqb_eq. split.
    + intros H c' [= <-]. congruence.
    + intros H. symmetry. exact (H c eq_refl).
  - split; [intros _ c [=] | reflexivity].
Qed.

Lemma version_mismatch_true (cfg : gmap string CacheConfig) (key : string) e :
  inherited key = false ->
  version_mismatch (find_config cfg key) (complete e) = true <->
  (exists c, cfg !! key = Some c /\ configVersion c <> version e).
Proof.
  intros Hk. rewrite (find_config_plain _ _ Hk).
  unfold version_mismatch. destruct (cfg !! key) as [c|]; simpl.
  - rewrite negb_true_iff, String.eqb_neq. split.
    + intros H. exists c. split; [reflexivity | congruence].
    + intros (c' & [= <-] & H). congruence.
  - split; [discriminate | intros (c & [=] & _)].
Qed.

(** [age > duration / 2] over the reals, for integers, is the comparison
    the model makes with the floor of the quotient. *)
Lemma exceeds_half (d a : Z) : (a >? d / 2) = true <-> d < 2 * a.
Proof.
  rewrite Z.gtb_ltb, Z.ltb_lt. split; intros H.
  - pose proof (Z.mul_div_le d 2 ltac:(lia)).
    pose proof (Z.mod_pos_bound d 2 ltac:(lia)).
    pose proof (Z.div_mod d 2 ltac:(lia)). lia.
  - apply Z.div_lt_upper_bound; lia.
Qed.

Lemma getAge_cases key w :
  getAge key w =
    match storage w !! (prefix +:+ key) with
    | Some (EntryText e) => (Return (Some (clock w - timestamp e)), w)
    | Some (LooseText l) => (Return (Some (clock w - l_timestamp l)), w)
    | _ => (Return None, w)
    end.
Proof.
  unfold getAge. js_unfold.
  destruct (storage w !! (prefix +:+ key)) as [[| |e|l]|]; reflexivity.
Qed.

(** [shouldRefresh], read off by the cases of what the slot holds and of
    what the lookup of the key finds. *)
Lemma shouldRefresh_cases cfg key w :
  shouldRefresh cfg key w =
    (Return
       match getAge key w with
       | (Return (Some a), _) =>
           match found_duration (config_or_default cfg key) with
           | Some d => a >? d / 2
           | None => false
           end
       | _ => true
       end, w).
Proof.
  unfold shouldRefresh. cbv [mbind mret Comp_bind Comp_ret bind ret].
  rewrite getAge_cases.
  destruct (storage w !! (prefix +:+ key)) as [[| |e|l]|]; reflexivity.
Qed.

(** C1, as amended: for a key that names no member of [Object.prototype]
    and JSON data v, after a [set key v] whose write the store accepts at
    clock reading [t0], the slot holds v with the version and with
    [expiresAt = t0 + duration] of the key's configuration in the table, or
    of the default where the table has none; a [get key] at any reading
    [now <= expiresAt], under a table that has no configuration for the key
    or whose version for it equals the stored one, returns v and changes
    nothing; a [get key] at a reading [now > expiresAt], or under a table
    whose configuration for the key has another version, returns null and
    removes the slot. *)
Theorem set_then_get_until_expired
    (cfg cfg' : gmap string CacheConfig) (key : string) (v : json)
    (w : World) (now : Z) :
  inherited key = false ->
  quotaExceeded w = false ->
  let c := default DEFAULT_CONFIG (cfg !! key) in
  let stored := mkEntry v (clock w) (configVersion c) (clock w + duration c) in
  let w1 := at_time now (set cfg key v w).2 in
  storage w1 !! (prefix +:+ key) = Some (EntryText stored) /\
  (now <= expiresAt stored ->
   (forall c', cfg' !! key = Some c' -> configVersion c' = version stored) ->
   get cfg' key w1 = (Return v, w1)) /\
  (expiresAt stored < now \/
   (exists c', cfg' !! key = Some c' /\ configVersion c' <> version stored) ->
   get cfg' key w1 = (Return JNull, without key w1) /\
   storage (without key w1) !! (prefix +:+ key) = None).
Proof.
  intros Hk Hq c stored w1.
  assert (Hs : storage w1 !! (prefix +:+ key) = Some (EntryText stored)).
  { subst w1. rewrite (set_accepted _ _ _ _ Hq). simpl.
    rewrite lookup_insert_eq.
    rewrite (stored_text_found cfg key c) by (apply config_or_default_plain; exact Hk).
    reflexivity. }
  split; [exact Hs|]. split.
  - intros Hnow Hver. rewrite get_cases, Hs.
    replace (clock w1) with now by reflexivity.
    apply (version_mismatch_false cfg' key stored Hk) in Hver. rewrite Hver.
    destruct (Z.ltb_spec (expiresAt stored) now); [lia | reflexivity].
  - intros Hinv. split; [|apply lookup_delete_eq].
    rewrite get_cases, Hs. replace (clock w1) with now by reflexivity.
    destruct Hinv as [Hexp | Hver].
    + apply Z.ltb_lt in Hexp. rewrite Hexp. reflexivity.
    + apply (version_mismatch_true cfg' key stored Hk) in Hver.
      rewrite Hver, orb_true_r. reflexivity.
Qed.

Lemma set_then_get_until_expired_witness :
  get CACHE_CONFIGS "profile"
      (at_time (44 * 60 * 1000)
         (set CACHE_CONFIGS "profile" (JStr "u1") (mkWorld ∅ 0 false true [])).2)
  = (Return (JStr "u1"),
     at_time (44 * 60 * 1000)
       (set CACHE_CONFIGS "profile" (JStr "u1") (mkWorld ∅ 0 false true [])).2).
Proof.
  destruct (set_then_get_until_expired CACHE_CONFIGS CACHE_CONFIGS "profile"
              (JStr "u1") (mkWorld ∅ 0 false true []) (44 * 60 * 1000)
              eq_refl eq_refl)
    as (_ & Hhit & _).
  apply Hhit.
  - vm_compute. discriminate.
  - intros c Hc. vm_compute in Hc. injection Hc as <-. reflexivity.
Defined.

(** C1 as stated fails when the clock reads exactly [expiresAt]: the entry
    is still returned and still stored. *)
Lemma get_at_expiresAt_still_hits :
  let w0 := mkWorld ∅ 0 false true [] in
  let w1 := at_time (45 * 60 * 1000) (set CACHE_CONFIGS "profile" (JStr "u1") w0).2 in
  storage w1 !! (prefix +:+ "profile")
    = Some (EntryText (mkEntry (JStr "u1") 0 "1.1" (45 * 60 * 1000))) /\
  clock w1 >= 45 * 60 * 1000 /\
  (get CACHE_CONFIGS "profile" w1).1 = Return (JStr "u1") /\
  (get CACHE_CONFIGS "profile" w1).1 <> Return JNull /\
  storage (get CACHE_CONFIGS "profile" w1).2 !! (prefix +:+ "profile") <> None.
Proof.
  repeat split; try (vm_compute; congruence).
Qed.




(** C5, as amended: [get] always returns and never throws; it returns null
    and leaves the world as it is when the slot is absent; it returns null
    and removes the slot when the slot holds a non-empty text that
    [JSON.parse] rejects; a slot holding the empty string is read as absent:
    null is returned and the slot stays. *)
Theorem get_total (cfg : gmap string CacheConfig) (key : string) (w : World) :
  (exists r w', get cfg key w = (Return r, w')) /\
  (storage w !! (prefix +:+ key) = None -> get cfg key w = (Return JNull, w)) /\
  (storage w !! (prefix +:+ key) = Some CorruptText ->
     get cfg key w = (Return JNull, without key w) /\
     storage (without key w) !! (prefix +:+ key) = None) /\
  (storage w !! (prefix +:+ key) = Some EmptyText ->
     get cfg key w = (Return JNull, w)).
Proof.
  rewrite get_cases. split; [|split; [|split]].
  - destruct (storage w !! (prefix +:+ key)) as [[| |e|l]|]; eauto;
      destruct (_ || _); eauto.
  - intros ->. reflexivity.
  - intros ->. split; [reflexivity | apply lookup_delete_eq].
  - intros ->. reflexivity.
Qed.

Lemma get_total_witness :
  get CACHE_CONFIGS "profile" (one_slot "profile" CorruptText 0)
    = (Return JNull, without "profile" (one_slot "profile" CorruptText 0)).
Proof.
  destruct (get_total CACHE_CONFIGS "profile" (one_slot "profile" CorruptText 0))
    as (_ & _ & Hcorrupt & _).
  apply Hcorrupt. reflexivity.
Defined.

(** C5 as stated fails on the empty string: [JSON.parse] rejects it, so it
    is corrupt JSON, yet [get] returns null without removing the slot. *)
Lemma get_keeps_empty_text :
  let w := one_slot "profile" EmptyText 0 in
  JSON_parse EmptyText w = (Throw SyntaxError, w) /\
  (get CACHE_CONFIGS "profile" w).1 = Return JNull /\
  storage (get CACHE_CONFIGS "profile" w).2 !! (prefix +:+ "profile")
    = Some EmptyText.
Proof.
  repeat split; vm_compute; reflexivity.
Qed.

(** C6, the failing input: the key 'toString' has no configuration, so
    the default duration of five minutes is the one the claim measures its
    entries against.  An entry that [set] stored under it is, ten minutes
    later, older than half of five minutes, and still [shouldRefresh]
    answers false: the lookup finds the [toString] of [Object.prototype]
    instead of the default, and the age is compared with [NaN].  Under the
    key 'comment-notifications', which has no configuration either, the
    same entry at the same age is reported in need of a refresh. *)
Theorem shouldRefresh_false_under_inherited_key :
  let t0 := 1700000000000 in
  let w0 := mkWorld ∅ t0 false true [] in
  let w1 := at_time (t0 + 10 * 60 * 1000) (set CACHE_CONFIGS "toString" (JStr "x") w0).2 in
  let w2 := at_time (t0 + 10 * 60 * 1000)
              (set CACHE_CONFIGS "comment-notifications" (JStr "x") w0).2 in
  CACHE_CONFIGS !! "toString" = None /\
  getAge "toString" w1 = (Return (Some (10 * 60 * 1000)), w1) /\
  duration DEFAULT_CONFIG / 2 < 10 * 60 * 1000 /\
  shouldRefresh CACHE_CONFIGS "toString" w1 = (Return false, w1) /\
  shouldRefresh CACHE_CONFIGS "comment-notifications" w2 = (Return true, w2).
Proof.
  repeat split.
Qed.

(** The same slip in [set] and [get]: what [set] stores under 'toString'
    has no version and no expiry, and the next [get] removes it and
    returns null. *)
Lemma set_then_get_under_inherited_key :
  let t0 := 1700000000000 in
  let w0 := mkWorld ∅ t0 false true [] in
  let w1 := (set CACHE_CONFIGS "toString" (JStr "x") w0).2 in
  storage w1 !! (prefix +:+ "toString")
    = Some (LooseText (mkLoose (JStr "x") t0 None None)) /\
  get CACHE_CONFIGS "toString" w1 = (Return JNull, without "toString" w1).
Proof.
  repeat split.
Qed.

Lemma clearExpired_key_run key w :
  clearExpired_key key w =
    (Return tt,
     if swept key w then with_storage (delete key (storage w)) w else w).
Proof.
  unfold clearExpired_key, swept.
  destruct (String.prefix prefix key); [|reflexivity].
  unfold after_expiry. js_unfold.
  destruct (storage w !! key) as [[| |e|l]|]; simpl; try reflexivity.
  - rewrite Z.gtb_ltb. destruct (expiresAt e <? clock w); reflexivity.
  - rewrite Z.gtb_ltb. destruct (default 0 (l_expiresAt l) <? clock w); reflexivity.
Qed.

Lemma forEach_clearExpired_key (keys : list string) (w : World) :
  exists s : gmap string Text,
    forEach keys clearExpired_key w = (Return tt, with_storage s w) /\
    forall j : string,
      s !! j = if bool_decide (j ∈ keys) && swept j w then None else storage w !! j.
Proof.
  revert w. induction keys as [|k keys IH]; intros w.
  - exists (storage w). split; [destruct w; reflexivity|].
    intros j. rewrite bool_decide_eq_false_2 by apply not_elem_of_nil. reflexivity.
  - simpl. js_unfold. rewrite clearExpired_key_run.
    set (w1 := if swept k w then with_storage (delete k (storage w)) w else w).
    destruct (IH w1) as (s & Hrun & Hs).
    assert (Hw1 : with_storage s w1 = with_storage s w).
    { subst w1. destruct (swept k w); reflexivity. }
    exists s. split; [rewrite Hrun, Hw1; reflexivity|].
    intros j. rewrite Hs.
    assert (Hclock : clock w1 = clock w).
    { subst w1. destruct (swept k w); reflexivity. }
    destruct (decide (j = k)) as [->|Hne].
    + rewrite (bool_decide_eq_true_2 (k ∈ k :: keys)) by apply list_elem_of_here.
      simpl. unfold swept at 1. rewrite Hclock. subst w1.
      destruct (swept k w) eqn:Hk; simpl.
      * rewrite lookup_delete_eq, andb_false_r.
        destruct (bool_decide _); reflexivity.
      * fold (swept k w). rewrite Hk, andb_false_r. reflexivity.
    + assert (Hj : storage w1 !! j = storage w !! j).
      { subst w1. destruct (swept k w); simpl; [|reflexivity].
        apply lookup_delete_ne. congruence. }
      assert (Hsw : swept j w1 = swept j w).
      { unfold swept. rewrite Hj, Hclock. reflexivity. }
      rewrite Hsw, Hj.
      rewrite (bool_decide_ext (j ∈ k :: keys) (j ∈ keys)); [reflexivity|].
      rewrite elem_of_cons. tauto.
Qed.

(** [clearExpired] returns, and removes exactly the swept slots. *)
Lemma clearExpired_run (w : World) :
  exists s : gmap string Text,
    clearExpired w = (Return tt, with_storage s w) /\
    forall j : string, s !! j = if swept j w then None else storage w !! j.
Proof.
  unfold clearExpired. js_unfold. unfold localStorage_keys.
  destruct (forEach_clearExpired_key ((map_to_list (storage w)).*1) w)
    as (s & Hrun & Hs).
  exists s. rewrite Hrun. split; [reflexivity|].
  intros j. rewrite Hs.
  destruct (storage w !! j) as [t|] eqn:Hj.
  - rewrite bool_decide_eq_true_2; [reflexivity|].
    apply list_elem_of_fmap. exists (j, t). split; [reflexivity|].
    apply elem_of_map_to_list. exact Hj.
  - unfold swept. rewrite Hj, andb_false_r, andb_false_r. reflexivity.
Qed.

(** C7: [set] never throws; when the browser refuses the write, what [set]
    does is what [clearExpired] does, and it returns normally: the slots
    that are prefixed and stale are removed, every other slot is as it was,
    and nothing is written. *)
Theorem set_never_throws
    (cfg : gmap string CacheConfig) (key : string) (v : json) (w : World) :
  (exists w', set cfg key v w = (Return tt, w')) /\
  (quotaExceeded w = true ->
     set cfg key v w = (Return tt, (clearExpired w).2) /\
     forall j : string,
       storage (set cfg key v w).2 !! j
         = if swept j w then None else storage w !! j).
Proof.
  destruct (clearExpired_run w) as (s & Hrun & Hs).
  split.
  - destruct (quotaExceeded w) eqn:Hq.
    + rewrite (set_refused _ _ _ _ Hq), Hrun. eauto.
    + rewrite (set_accepted _ _ _ _ Hq). eauto.
  - intros Hq. rewrite (set_refused _ _ _ _ Hq), Hrun. split; [reflexivity|].
    exact Hs.
Qed.

Lemma set_never_throws_witness :
  set CACHE_CONFIGS "profile" (JStr "u1")
      (mkWorld {[ prefix +:+ "projects" := CorruptText ]} 0 true true [])
  = (Return tt,
     (clearExpired
        (mkWorld {[ prefix +:+ "projects" := CorruptText ]} 0 true true [])).2).
Proof.
  destruct (set_never_throws CACHE_CONFIGS "profile" (JStr "u1")
              (mkWorld {[ prefix +:+ "projects" := CorruptText ]} 0 true true []))
    as (_ & Hfull).
  destruct (Hfull eq_refl) as (Hrun & _). exact Hrun.
Defined.

Lemma prefix_prefixed (key : string) : String.prefix prefix (prefix +:+ key) = true.
Proof. destruct key; reflexivity. Qed.

Lemma two_invalidations (a b : string) (w : World) :
  removes_exactly a b ((invalidate a;; invalidate b) w) w.
Proof.
  assert (Hrun : (invalidate a;; invalidate b) w = (Return tt, without b (without a w)))
    by reflexivity.
  unfold removes_exactly. rewrite Hrun. simpl.
  assert (Hother : forall j : string,
            j <> prefix +:+ a -> j <> prefix +:+ b ->
            delete (prefix +:+ b) (delete (prefix +:+ a) (storage w)) !! j
              = storage w !! j).
  { intros j Ha Hb. rewrite !lookup_delete_ne by congruence. reflexivity. }
  repeat split.
  - destruct (decide (prefix +:+ a = prefix +:+ b)) as [Heq|Hne].
    + rewrite Heq. apply lookup_delete_eq.
    + rewrite lookup_delete_ne by congruence. apply lookup_delete_eq.
  - apply lookup_delete_eq.
  - exact Hother.
  - intros j Hj. apply Hother; intros ->; rewrite prefix_prefixed in Hj;
      discriminate.
Qed.

(** C9: for table 'projects' exactly the 'projects' and 'dashboard' entries
    are removed, for 'notifications' exactly 'notifications' and
    'domainExpiry', for every table other than 'domains', 'projects' and
    'notifications' exactly 'projects' and 'dashboard'; every other slot,
    with or without the cache prefix, is unchanged. *)
Theorem invalidateOnDataChange_routes (tableName operation : string) (w : World) :
  (tableName = "projects" ->
     removes_exactly "projects" "dashboard"
       (invalidateOnDataChange tableName operation w) w) /\
  (tableName = "notifications" ->
     removes_exactly "notifications" "domainExpiry"
       (invalidateOnDataChange tableName operation w) w) /\
  (tableName <> "domains" -> tableName <> "projects" ->
   tableName <> "notifications" ->
     removes_exactly "projects" "dashboard"
       (invalidateOnDataChange tableName operation w) w).
Proof.
  split; [|split].
  - intros ->. apply two_invalidations.
  - intros ->. apply two_invalidations.
  - intros Hd Hp Hn. unfold invalidateOnDataChange.
    apply String.eqb_neq in Hd, Hp, Hn. rewrite Hd, Hp, Hn.
    apply two_invalidations.
Qed.

Lemma invalidateOnDataChange_routes_witness :
  removes_exactly "projects" "dashboard"
    (invalidateOnDataChange "projects" "UPDATE" (one_slot "profile" CorruptText 0))
    (one_slot "profile" CorruptText 0) /\
  removes_exactly "notifications" "domainExpiry"
    (invalidateOnDataChange "notifications" "INSERT" (one_slot "profile" CorruptText 0))
    (one_slot "profile" CorruptText 0) /\
  removes_exactly "projects" "dashboard"
    (invalidateOnDataChange "comments" "DELETE" (one_slot "profile" CorruptText 0))
    (one_slot "profile" CorruptText 0).
Proof.
  split; [|split].
  - destruct (invalidateOnDataChange_routes "projects" "UPDATE"
                (one_slot "profile" CorruptText 0)) as (Hprojects & _ & _).
    apply Hprojects. reflexivity.
  - destruct (invalidateOnDataChange_routes "notifications" "INSERT"
                (one_slot "profile" CorruptText 0)) as (_ & Hnotifications & _).
    apply Hnotifications. reflexivity.
  - destruct (invalidateOnDataChange_routes "comments" "DELETE"
                (one_slot "profile" CorruptText 0)) as (_ & _ & Hother).
    apply Hother; discriminate.
Defined.

(** C3, as amended: for every operation, [invalidateOnDataChange
    ('domains', operation)] returns and removes the domain-expiry,
    projects, dashboard and notification-count entries (all of
    [DOMAIN_CACHE_KEYS]); it dispatches exactly one 'domainDataChanged'
    event when a global [window] exists and none when there is no
    [window]. *)
Theorem invalidate_domains (operation : string) (w : World) :
  exists w' : World,
    invalidateOnDataChange "domains" operation w = (Return tt, w') /\
    (forall key : string,
       key ∈ DOMAIN_CACHE_KEYS -> storage w' !! (prefix +:+ key) = None) /\
    dispatched w'
      = (dispatched w ++
         (if hasWindow w then [domainDataChanged (clock w)] else []))%list.
Proof.
  unfold invalidateOnDataChange. simpl String.eqb. cbv iota.
  unfold invalidateDomainCaches, invalidate. js_unfold.
  destruct (hasWindow w) eqn:Hwin; simpl; rewrite ?Hwin;
    (eexists; split; [reflexivity|]; split;
     [ intros key Hkey; simpl;
       repeat (apply elem_of_cons in Hkey as [-> | Hkey];
               [ repeat first [ apply lookup_delete_eq
                              | rewrite lookup_delete_ne by discriminate ]
               | ]);
       apply not_elem_of_nil in Hkey; contradiction
     | simpl; rewrite ?app_nil_r; reflexivity ]).
Qed.

Lemma invalidate_domains_witness :
  storage (invalidateOnDataChange "domains" "UPDATE"
             (one_slot "notification-counts" CorruptText 0)).2
    !! (prefix +:+ "notification-counts") = None.
Proof.
  destruct (invalidate_domains "UPDATE" (one_slot "notification-counts" CorruptText 0))
    as (w' & Hrun & Hgone & _).
  rewrite Hrun. apply Hgone. vm_compute.
  do 5 apply list_elem_of_further. apply list_elem_of_here.
Defined.

(** C3 as stated fails where there is no global [window]: the entries are
    removed and no event is dispatched. *)
Lemma no_window_no_event :
  let w := mkWorld ∅ 0 false false [] in
  (invalidateOnDataChange "domains" "UPDATE" w).1 = Return tt /\
  dispatched (invalidateOnDataChange "domains" "UPDATE" w).2 = [] /\
  length (dispatched (invalidateOnDataChange "domains" "UPDATE" w).2) <> 1%nat.
Proof.
  repeat split. vm_compute. discriminate.
Qed.

End CacheManagerProofs.

(** ** Properties of the notification provider *)

Module NotificationContextProofs.
Import NotificationContext.

(** No handler reads the state [isSaving]: running one commutes with
    setting the state. *)
Lemma handle_ignores_state (s : Subscription) (payload : Payload) (b : bool) (p : Provider) :
  handle s payload (setIsSaving b p) = setIsSaving b (handle s payload p).
Proof.
  unfold handle.
  destruct (handler s), (closure_isSaving s); try reflexivity.
  destruct (comment_related payload); reflexivity.
Qed.

Lemma deliver_ignores_state (tableName : string) (payload : Payload) (b : bool)
    (subs : list Subscription) (p : Provider) :
  fold_left
    (fun q s => if String.eqb (table (handler s)) tableName then handle s payload q else q)
    subs (setIsSaving b p)
  = setIsSaving b
      (fold_left
         (fun q s => if String.eqb (table (handler s)) tableName then handle s payload q else q)
         subs p).
Proof.
  revert p. induction subs as [|s subs IH]; intros p; simpl; [reflexivity|].
  destruct (String.eqb (table (handler s)) tableName); [|apply IH].
  rewrite handle_ignores_state. apply IH.
Qed.

(** What a pushed change does is the same whether a save is marked or
    not: [markSaveStart] and [markSaveEnd] reach the state only. *)
Lemma postgres_changes_ignores_state (tableName : string) (payload : Payload) (b : bool)
    (p : Provider) :
  postgres_changes tableName payload (setIsSaving b p)
    = setIsSaving b (postgres_changes tableName payload p).
Proof.
  unfold postgres_changes. apply deliver_ignores_state.
Qed.

Lemma handle_keeps_timers (s : Subscription) (payload : Payload) (p : Provider) :
  exists more : list Timer, timers (handle s payload p) = (timers p ++ more)%list.
Proof.
  unfold handle.
  destruct (handler s), (closure_isSaving s);
    try (exists []; rewrite app_nil_r; reflexivity);
    try (eexists; reflexivity).
  destruct (comment_related payload);
    [eexists; reflexivity | exists []; rewrite app_nil_r; reflexivity].
Qed.

(** A pushed change cancels no timer: the pending ones stay, in place, and
    new ones come after them. *)
Lemma postgres_changes_keeps_timers (tableName : string) (payload : Payload) (p : Provider) :
  exists more : list Timer,
    timers (postgres_changes tableName payload p) = (timers p ++ more)%list.
Proof.
  unfold postgres_changes. generalize (subscriptions p) as subs. intros subs.
  revert p. induction subs as [|s subs IH]; intros p; simpl.
  - exists []. rewrite app_nil_r. reflexivity.
  - destruct (String.eqb (table (handler s)) tableName); [|apply IH].
    destruct (handle_keeps_timers s payload p) as (m1 & H1).
    destruct (IH (handle s payload p)) as (m2 & H2).
    exists (m1 ++ m2)%list. rewrite H2, H1, app_assoc. reflexivity.
Qed.

(** C2, on the code: three changes of the domains table at 0, 100 and 200
    ms, while [isSaving] is false, set three timers; none is cancelled, and
    [loadDomainExpiryData] is called three times, at 1000, 1100 and 1200
    ms, after its call at 0 by the first render. *)
Theorem three_changes_three_reloads :
  let p1 := postgres_changes "domains" UPDATE mounted in
  let p2 := postgres_changes "domains" UPDATE (advance 100 p1) in
  let p3 := postgres_changes "domains" UPDATE (advance 200 p2) in
  isSaving p3 = false /\
  timers p3 = [ mkTimer 1000 loadDomainExpiryData;
                mkTimer 1100 loadDomainExpiryData;
                mkTimer 1200 loadDomainExpiryData ] /\
  loads_of loadDomainExpiryData p3 = [0] /\
  loads_of loadDomainExpiryData (advance 1200 p3) = [0; 1000; 1100; 1200].
Proof.
  repeat split; vm_compute; reflexivity.
Qed.

(** The same for the comment subscription: three comment notifications
    inserted within a second reload the comment list three times. *)
Lemma three_comment_changes_three_reloads :
  let p1 := postgres_changes "notifications" INSERT_comment mounted in
  let p2 := postgres_changes "notifications" INSERT_comment (advance 100 p1) in
  let p3 := postgres_changes "notifications" INSERT_comment (advance 200 p2) in
  loads_of loadCommentNotifications (advance 1200 p3) = [0; 1000; 1100; 1200].
Proof.
  vm_compute. reflexivity.
Qed.

(** C8, on the code: the handlers registered by the first render hold
    [isSaving = false]; after [markSaveStart] the state is true and the
    handlers still hold false, so a change of the domains table during the
    save sets the timer and [loadDomainExpiryData] is called a second
    later; a comment notification inserted during the save reloads the
    comment list the same way. *)
Theorem change_during_save_reloads :
  let saving := markSaveStart mounted in
  let p := postgres_changes "domains" UPDATE (advance 500 saving) in
  let q := postgres_changes "notifications" INSERT_comment (advance 500 saving) in
  isSaving p = true /\
  timers p = [mkTimer 1500 loadDomainExpiryData] /\
  isSaving (advance 1500 p) = true /\
  loads_of loadDomainExpiryData (advance 1500 p) = [0; 1500] /\
  isSaving (advance 1500 q) = true /\
  loads_of loadCommentNotifications (advance 1500 q) = [0; 1500].
Proof.
  repeat split; vm_compute; reflexivity.
Qed.

(** The guard does work on the value the closure holds: handlers that
    were registered during a save (the user signs in while one is marked)
    drop every change, also after [markSaveEnd]. *)
Lemma change_after_save_dropped :
  let signed_in := setUser (Some "u1") (markSaveStart (mount None fresh_browser)) in
  let p := postgres_changes "domains" UPDATE (advance 500 (markSaveEnd signed_in)) in
  isSaving p = false /\
  timers p = [] /\
  loads_of loadDomainExpiryData (advance 5000 p) = [0; 0].
Proof.
  repeat split; vm_compute; reflexivity.
Qed.

(** The sibling provider does drop a change that arrives during a save,
    and takes the next one after [markSaveEnd]. *)
Lemma sibling_drops_during_save (payload : Payload) (p : Provider) :
  postgres_changes "notifications" payload (sibling_markSaveStart p)
    = sibling_markSaveStart p.
Proof.
  unfold postgres_changes, sibling_markSaveStart, sibling_effect. simpl.
  destruct (user p); reflexivity.
Qed.

Lemma sibling_resumes_after_save (u : string) (p : Provider) :
  user p = Some u ->
  timers (postgres_changes "notifications" INSERT_comment
            (sibling_markSaveEnd (sibling_markSaveStart p)))
    = (timers p ++ [mkTimer (now p + 1000) loadCommentNotifications])%list.
Proof.
  intros Hu.
  unfold postgres_changes, sibling_markSaveEnd, sibling_markSaveStart, sibling_effect.
  simpl. rewrite Hu. reflexivity.
Qed.

Lemma copy_matching_spec (commentId : string) (prev : list CommentNotification) (next : nat) :
  (next <= (copy_matching commentId prev next).2)%nat /\
  Forall2
    (fun c c' =>
       same_fields c c' /\
       (id c <> commentId -> c' = c) /\
       (id c = commentId ->
        (next <= oid c' < (copy_matching commentId prev next).2)%nat))
    prev (copy_matching commentId prev next).1.
Proof.
  revert next. induction prev as [|c rest IH]; intros next; simpl.
  - split; [lia | constructor].
  - destruct (String.eqb_spec (id c) commentId) as [Heq|Hne].
    + destruct (IH (S next)) as [Hle Hall].
      destruct (copy_matching commentId rest (S next)) as [rest' next'].
      simpl in *. split; [lia|]. constructor.
      * split; [reflexivity|]. split; [intros Hne; contradiction|].
        intros _. simpl. lia.
      * eapply Forall2_impl; [exact Hall|]. simpl.
        intros a b (Hf & Hkeep & Hfresh).
        split; [exact Hf|]. split; [exact Hkeep|].
        intros Hid. specialize (Hfresh Hid). lia.
    + destruct (IH next) as [Hle Hall].
      destruct (copy_matching commentId rest next) as [rest' next'].
      simpl in *. split; [lia|]. constructor; [|exact Hall].
      split; [reflexivity|]. split; [reflexivity|].
      intros Hid. contradiction.
Qed.

(** C10, as amended: when a user is signed in and the backend update
    reports no error, [markCommentAsRead commentId] sets
    [unreadCommentCount] to [max 0 (previous - 1)], whatever the list
    holds; the new list has, place by place, the fields of the old one, so
    no field records the read; the elements whose id is [commentId] are
    new objects, every other element is the object it was; the cache slot
    'comment-notifications' is removed.  On a backend error nothing
    changes. *)
Theorem markCommentAsRead_effect (commentId u : string) (p : Provider) :
  user p = Some u ->
  let p' := markCommentAsRead commentId false p in
  unreadCommentCount p' = Z.max 0 (unreadCommentCount p - 1) /\
  Forall2
    (fun c c' =>
       same_fields c c' /\
       (id c <> commentId -> c' = c) /\
       (id c = commentId -> (next_oid p <= oid c' < next_oid p')%nat))
    (commentNotifications p) (commentNotifications p') /\
  JS.storage (browser p') !! (CacheManager.prefix +:+ "comment-notifications") = None /\
  markCommentAsRead commentId true p = p.
Proof.
  intros Hu p'. subst p'. unfold markCommentAsRead. rewrite Hu.
  pose proof (copy_matching_spec commentId (commentNotifications p) (next_oid p))
    as [_ Hall].
  destruct (copy_matching commentId (commentNotifications p) (next_oid p))
    as [comments next].
  simpl in *. repeat split; [exact Hall | apply lookup_delete_eq].
Qed.

Lemma markCommentAsRead_effect_witness :
  unreadCommentCount (markCommentAsRead "a" false two_comments) = 0.
Proof.
  destruct (markCommentAsRead_effect "a" "u1" two_comments eq_refl) as (Hcount & _).
  rewrite Hcount. reflexivity.
Defined.

(** C10 as stated fails on a list with another comment: that element is
    not replaced by a copy, it is the object it was. *)
Lemma other_comments_are_not_copied :
  let p' := markCommentAsRead "a" false two_comments in
  commentNotifications p' = [spread comment_a 2; comment_b] /\
  commentNotifications p' !! 1%nat = commentNotifications two_comments !! 1%nat /\
  ~ Forall (fun c' => (next_oid two_comments <= oid c')%nat) (commentNotifications p').
Proof.
  repeat split.
  intros Hall. apply Forall_cons in Hall as [_ Hall].
  apply Forall_cons in Hall as [Hb _]. vm_compute in Hb. lia.
Qed.

End NotificationContextProofs.

(** ** Further properties of the cache manager *)

Module CacheManagerRestProofs.
Import JS CacheManager CacheManagerRest CacheManagerProofs.

Lemma world_eta (w : World) : with_storage (storage w) w = w.
Proof. destruct w. reflexivity. Qed.

Lemma prefix_inj (a b : string) : prefix +:+ a = prefix +:+ b -> a = b.
Proof. cbv [prefix]. simpl. intros [= H]. exact H. Qed.

(** What [get] returns depends on the slot of the key and on the clock
    only. *)
Lemma read_cases (cfg : gmap string CacheConfig) (key : string) (w : World) :
  read cfg key w =
    match storage w !! (prefix +:+ key) with
    | Some (EntryText e) =>
        if (expiresAt e <? clock w) || version_mismatch (find_config cfg key) (complete e)
        then Return JNull
        else Return (data e)
    | Some (LooseText l) =>
        if (default 0 (l_expiresAt l) <? clock w) || version_mismatch (find_config cfg key) l
        then Return JNull
        else Return (l_data l)
    | _ => Return JNull
    end.
Proof.
  unfold read. rewrite get_cases.
  destruct (storage w !! (prefix +:+ key)) as [[| |e|l]|]; try reflexivity;
    destruct (_ || _); reflexivity.
Qed.

Lemma read_ext (cfg : gmap string CacheConfig) (key : string) (w1 w2 : World) :
  storage w1 !! (prefix +:+ key) = storage w2 !! (prefix +:+ key) ->
  clock w1 = clock w2 ->
  read cfg key w1 = read cfg key w2.
Proof. intros Hs Hc. rewrite !read_cases, Hs, Hc. reflexivity. Qed.

(** Removing the swept slots changes no answer of [get]. *)
Lemma read_without_swept (cfg : gmap string CacheConfig) (key : string)
    (s : gmap string Text) (w : World) :
  (forall j : string, s !! j = if swept j w then None else storage w !! j) ->
  read cfg key (with_storage s w) = read cfg key w.
Proof.
  intros Hs. rewrite !read_cases.
  replace (clock (with_storage s w)) with (clock w) by reflexivity.
  replace (storage (with_storage s w)) with s by reflexivity.
  rewrite Hs. unfold swept. rewrite prefix_prefixed.
  destruct (storage w !! (prefix +:+ key)) as [[| |e|l]|]; try reflexivity.
  - unfold stale. simpl andb.
    destruct (expiresAt e <? clock w) eqn:Hexp; cbv iota; rewrite ?Hexp; reflexivity.
  - unfold stale. simpl andb.
    destruct (default 0 (l_expiresAt l) <? clock w) eqn:Hexp; cbv iota; rewrite ?Hexp;
      reflexivity.
Qed.

(** X1: Invalidating a key that has no slot changes nothing and raises
    nothing, and a second [invalidate] of the same key does what the first
    did. *)
Theorem invalidate_idempotent (key : string) (w : World) :
  (storage w !! (prefix +:+ key) = None -> invalidate key w = (Return tt, w)) /\
  invalidate key (invalidate key w).2 = invalidate key w.
Proof.
  rewrite !invalidate_run. simpl. split.
  - intros Hnone. unfold without. rewrite (delete_id _ _ Hnone), world_eta.
    reflexivity.
  - unfold without. simpl. rewrite delete_delete_eq. reflexivity.
Qed.

Lemma invalidate_idempotent_witness :
  invalidate "projects" (one_slot "profile" CorruptText 0)
    = (Return tt, one_slot "profile" CorruptText 0).
Proof.
  destruct (invalidate_idempotent "projects" (one_slot "profile" CorruptText 0))
    as (Habsent & _).
  apply Habsent. reflexivity.
Defined.

(** X2: After [invalidate key], [get key] returns null and leaves the world as
    it is, [getAge key] is null and [shouldRefresh key] is true, while
    [get] of every other key returns what it returned before. *)
Theorem invalidate_then_get (cfg : gmap string CacheConfig) (key other : string) (w : World) :
  let w1 := (invalidate key w).2 in
  get cfg key w1 = (Return JNull, w1) /\
  getAge key w1 = (Return None, w1) /\
  shouldRefresh cfg key w1 = (Return true, w1) /\
  (other <> key -> read cfg other w1 = read cfg other w).
Proof.
  intros w1.
  assert (Hgone : storage w1 !! (prefix +:+ key) = None) by apply lookup_delete_eq.
  assert (Hage : getAge key w1 = (Return None, w1)).
  { rewrite getAge_cases, Hgone. reflexivity. }
  split; [rewrite get_cases, Hgone; reflexivity|].
  split; [exact Hage|]. split.
  - unfold shouldRefresh. js_unfold. rewrite Hage. reflexivity.
  - intros Hne. apply read_ext; [|reflexivity].
    apply lookup_delete_ne. intros Heq. apply Hne. symmetry.
    exact (prefix_inj _ _ Heq).
Qed.

Lemma invalidate_then_get_witness :
  read CACHE_CONFIGS "profile"
       (invalidate "projects" (one_slot "profile" (EntryText (mkEntry (JStr "u1") 0 "1.1" 100)) 5)).2
  = read CACHE_CONFIGS "profile"
         (one_slot "profile" (EntryText (mkEntry (JStr "u1") 0 "1.1" 100)) 5).
Proof.
  destruct (invalidate_then_get CACHE_CONFIGS "projects" "profile"
              (one_slot "profile" (EntryText (mkEntry (JStr "u1") 0 "1.1" 100)) 5))
    as (_ & _ & _ & Hother).
  apply Hother. discriminate.
Defined.

(** X3: A [set key v] that the store accepts changes the slot of [key] only:
    [get], [getAge] and [shouldRefresh] of every other key answer as
    before, and no slot without the cache prefix is touched. *)
Theorem set_changes_one_slot
    (cfg cfg' : gmap string CacheConfig) (key other : string) (v : json) (w : World) :
  quotaExceeded w = false ->
  let w1 := (set cfg key v w).2 in
  (other <> key ->
     read cfg' other w1 = read cfg' other w /\
     (getAge other w1).1 = (getAge other w).1 /\
     (shouldRefresh cfg' other w1).1 = (shouldRefresh cfg' other w).1) /\
  (forall j : string, String.prefix prefix j = false -> storage w1 !! j = storage w !! j) /\
  clock w1 = clock w /\ dispatched w1 = dispatched w.
Proof.
  intros Hq w1. subst w1. rewrite (set_accepted _ _ _ _ Hq). simpl.
  split; [|split; [|split; reflexivity]].
  - intros Hne.
    assert (Hslot : <[prefix +:+ key := stored_text cfg key v (clock w)]> (storage w)
                      !! (prefix +:+ other) = storage w !! (prefix +:+ other)).
    { apply lookup_insert_ne. intros Heq. apply Hne. symmetry.
      exact (prefix_inj _ _ Heq). }
    assert (Hage : forall w', storage w' !! (prefix +:+ other) = storage w !! (prefix +:+ other) ->
                              clock w' = clock w ->
                              (getAge other w').1 = (getAge other w).1).
    { intros w' Hs Hc. rewrite !getAge_cases, Hs, Hc.
      destruct (storage w !! (prefix +:+ other)) as [[| |e|l]|]; reflexivity. }
    split; [apply read_ext; [exact Hslot | reflexivity]|].
    split; [apply Hage; [exact Hslot | reflexivity]|].
    rewrite !shouldRefresh_cases, !getAge_cases. simpl. rewrite Hslot.
    destruct (storage w !! (prefix +:+ other)) as [[| |e|l]|]; reflexivity.
  - intros j Hj. apply lookup_insert_ne. intros <-.
    rewrite prefix_prefixed in Hj. discriminate.
Qed.

Lemma set_changes_one_slot_witness :
  read CACHE_CONFIGS "profile"
       (set CACHE_CONFIGS "projects" (JNum 3)
          (one_slot "profile" (EntryText (mkEntry (JStr "u1") 0 "1.1" 100)) 5)).2
  = read CACHE_CONFIGS "profile"
         (one_slot "profile" (EntryText (mkEntry (JStr "u1") 0 "1.1" 100)) 5).
Proof.
  destruct (set_changes_one_slot CACHE_CONFIGS CACHE_CONFIGS "projects" "profile" (JNum 3)
              (one_slot "profile" (EntryText (mkEntry (JStr "u1") 0 "1.1" 100)) 5) eq_refl)
    as (Hother & _).
  destruct Hother as (Hread & _); [discriminate | exact Hread].
Defined.

(** X4: A [set] that the browser refuses stores nothing: [get] of every key,
    the one just set included, returns what it returned before, and no
    slot without the cache prefix is touched. *)
Theorem refused_set_stores_nothing
    (cfg cfg' : gmap string CacheConfig) (key any : string) (v : json) (w : World) :
  quotaExceeded w = true ->
  let w1 := (set cfg key v w).2 in
  read cfg' any w1 = read cfg' any w /\
  (forall j : string, String.prefix prefix j = false -> storage w1 !! j = storage w !! j).
Proof.
  intros Hq w1. subst w1. rewrite (set_refused _ _ _ _ Hq).
  destruct (clearExpired_run w) as (s & Hrun & Hs). rewrite Hrun. simpl. split.
  - apply read_without_swept. exact Hs.
  - intros j Hj. rewrite Hs. unfold swept. rewrite Hj. reflexivity.
Qed.

Lemma refused_set_stores_nothing_witness :
  read CACHE_CONFIGS "profile"
       (set CACHE_CONFIGS "profile" (JStr "u1") (mkWorld ∅ 0 true true [])).2
  = Return JNull.
Proof.
  destruct (refused_set_stores_nothing CACHE_CONFIGS CACHE_CONFIGS "profile" "profile"
              (JStr "u1") (mkWorld ∅ 0 true true []) eq_refl) as (Hread & _).
  rewrite Hread. reflexivity.
Defined.

(** X5: [clearExpired] returns normally, adds no slot, touches no slot without
    the cache prefix, keeps every entry that has not expired, and changes
    no answer of [get]. *)
Theorem clearExpired_keeps_what_get_serves
    (cfg : gmap string CacheConfig) (key : string) (w : World) :
  exists w1 : World,
    clearExpired w = (Return tt, w1) /\
    read cfg key w1 = read cfg key w /\
    (forall j : string, String.prefix prefix j = false -> storage w1 !! j = storage w !! j) /\
    (forall (j : string) (e : CacheEntry),
       storage w !! j = Some (EntryText e) -> clock w <= expiresAt e ->
       storage w1 !! j = Some (EntryText e)) /\
    (forall (j : string) (t : Text), storage w1 !! j = Some t -> storage w !! j = Some t).
Proof.
  destruct (clearExpired_run w) as (s & Hrun & Hs).
  exists (with_storage s w). split; [exact Hrun|]. simpl.
  split; [apply read_without_swept; exact Hs|]. split; [|split].
  - intros j Hj. rewrite Hs. unfold swept. rewrite Hj. reflexivity.
  - intros j e Hj Hnow. rewrite Hs. unfold swept. rewrite Hj. simpl.
    destruct (Z.ltb_spec (expiresAt e) (clock w)); [lia|].
    rewrite andb_false_r. reflexivity.
  - intros j t. rewrite Hs. destruct (swept j w); [discriminate | tauto].
Qed.

(** X6: A second [clearExpired] at the same clock reading finds nothing left
    to remove. *)
Theorem clearExpired_idempotent (w : World) :
  clearExpired (clearExpired w).2 = (Return tt, (clearExpired w).2).
Proof.
  destruct (clearExpired_run w) as (s & Hrun & Hs). rewrite Hrun. simpl.
  destruct (clearExpired_run (with_storage s w)) as (s' & Hrun' & Hs').
  rewrite Hrun'. f_equal. unfold with_storage. simpl. f_equal.
  apply map_eq. intros j. rewrite Hs'. simpl.
  destruct (swept j (with_storage s w)) eqn:Hsw; [|reflexivity].
  unfold swept in Hsw. simpl in Hsw. rewrite Hs in *.
  destruct (swept j w) eqn:Hsw0; [reflexivity|].
  unfold swept in Hsw0. rewrite Hsw in Hsw0. discriminate.
Qed.

Lemma forEach_clearAll (keys : list string) (w : World) :
  exists s : gmap string Text,
    forEach keys
      (fun key : string =>
         if String.prefix prefix key then localStorage_removeItem key else mret tt) w
      = (Return tt, with_storage s w) /\
    forall j : string,
      s !! j = if bool_decide (j ∈ keys) && String.prefix prefix j then None
               else storage w !! j.
Proof.
  revert w. induction keys as [|k keys IH]; intros w.
  - exists (storage w). split; [destruct w; reflexivity|].
    intros j. rewrite bool_decide_eq_false_2 by apply not_elem_of_nil. reflexivity.
  - simpl. cbv [mbind Comp_bind bind].
    set (w1 := if String.prefix prefix k
               then with_storage (delete k (storage w)) w else w).
    assert (Hstep : (if String.prefix prefix k
                     then localStorage_removeItem k else mret tt) w = (Return tt, w1)).
    { subst w1. destruct (String.prefix prefix k); reflexivity. }
    rewrite Hstep.
    destruct (IH w1) as (s & Hrun & Hs).
    assert (Hw1 : with_storage s w1 = with_storage s w).
    { subst w1. destruct (String.prefix prefix k); reflexivity. }
    exists s. split; [rewrite Hrun, Hw1; reflexivity|].
    intros j. rewrite Hs. subst w1.
    destruct (decide (j = k)) as [->|Hne].
    + rewrite (bool_decide_eq_true_2 (k ∈ k :: keys)) by apply list_elem_of_here.
      simpl. destruct (String.prefix prefix k) eqn:Hk; simpl.
      * rewrite lookup_delete_eq, andb_true_r. destruct (bool_decide _); reflexivity.
      * rewrite andb_false_r. reflexivity.
    + rewrite (bool_decide_ext (j ∈ k :: keys) (j ∈ keys))
        by (rewrite elem_of_cons; tauto).
      destruct (String.prefix prefix k); simpl; [|reflexivity].
      rewrite lookup_delete_ne by congruence. reflexivity.
Qed.

Lemma clearAll_run (w : World) :
  exists s : gmap string Text,
    clearAll w = (Return tt, with_storage s w) /\
    forall j : string, s !! j = if String.prefix prefix j then None else storage w !! j.
Proof.
  unfold clearAll. cbv [try_catch mbind Comp_bind bind localStorage_keys].
  destruct (forEach_clearAll ((map_to_list (storage w)).*1) w) as (s & Hrun & Hs).
  rewrite Hrun. exists s. split; [reflexivity|].
  intros j. rewrite Hs. destruct (storage w !! j) as [t|] eqn:Hj.
  - rewrite bool_decide_eq_true_2; [reflexivity|].
    apply list_elem_of_fmap. exists (j, t). split; [reflexivity|].
    apply elem_of_map_to_list. exact Hj.
  - destruct (_ && _), (String.prefix prefix j); reflexivity.
Qed.

(** X7: [clearAll] returns normally and removes every slot with the cache
    prefix and no other: afterwards [get] returns null and [shouldRefresh]
    true for every key, and the slots without the prefix hold what they
    held. *)
Theorem clearAll_empties_the_cache
    (cfg : gmap string CacheConfig) (key : string) (w : World) :
  exists w1 : World,
    clearAll w = (Return tt, w1) /\
    (forall j : string,
       storage w1 !! j = if String.prefix prefix j then None else storage w !! j) /\
    get cfg key w1 = (Return JNull, w1) /\
    shouldRefresh cfg key w1 = (Return true, w1).
Proof.
  unfold clearAll. cbv [try_catch mbind Comp_bind bind localStorage_keys].
  destruct (forEach_clearAll ((map_to_list (storage w)).*1) w) as (s & Hrun & Hs).
  rewrite Hrun.
  exists (with_storage s w). split; [reflexivity|].
  assert (Hall : forall j : string,
            s !! j = if String.prefix prefix j then None else storage w !! j).
  { intros j. rewrite Hs. destruct (storage w !! j) as [t|] eqn:Hj.
    - rewrite bool_decide_eq_true_2; [reflexivity|].
      apply list_elem_of_fmap. exists (j, t). split; [reflexivity|].
      apply elem_of_map_to_list. exact Hj.
    - destruct (_ && _), (String.prefix prefix j); reflexivity. }
  split; [exact Hall|].
  assert (Hgone : storage (with_storage s w) !! (prefix +:+ key) = None).
  { simpl. rewrite Hall, prefix_prefixed. reflexivity. }
  split; [rewrite get_cases, Hgone; reflexivity|].
  unfold shouldRefresh. js_unfold. rewrite getAge_cases, Hgone. reflexivity.
Qed.

(** Every duration of the shipped table, and the default one, is
    positive. *)
Lemma CACHE_CONFIGS_duration_positive (key : string) :
  0 < duration (default DEFAULT_CONFIG (CACHE_CONFIGS !! key)).
Proof.
  destruct (CACHE_CONFIGS !! key) as [c|] eqn:Hc; [|reflexivity].
  apply elem_of_list_to_map_2 in Hc.
  repeat (apply elem_of_cons in Hc as [Hc | Hc];
          [injection Hc as _ ->; reflexivity|]).
  apply not_elem_of_nil in Hc. contradiction.
Qed.

(** No key of the shipped table is the name of a member of
    [Object.prototype]. *)
Lemma CACHE_CONFIGS_not_inherited (key : string) :
  inherited key = true -> CACHE_CONFIGS !! key = None.
Proof.
  unfold inherited. intros H.
  apply existsb_exists in H as (name & Hin & Heq).
  apply String.eqb_eq in Heq. subst name. unfold Object_prototype in Hin.
  repeat (destruct Hin as [<- | Hin]; [reflexivity|]).
  destruct Hin.
Qed.

(** The entry [set] writes carries the version the same table expects. *)
Lemma stored_version_matches (cfg : gmap string CacheConfig) (key : string)
    (v : json) (t x : Z) :
  inherited key = false ->
  version_mismatch (find_config cfg key)
    (complete (mkEntry v t (configVersion (default DEFAULT_CONFIG (cfg !! key))) x))
  = false.
Proof.
  intros Hk. rewrite (find_config_plain _ _ Hk). unfold version_mismatch.
  destruct (cfg !! key) as [c|]; [|reflexivity]. simpl.
  rewrite String.eqb_refl. reflexivity.
Qed.

(** X8: Under the shipped configuration, after a [set key v] of JSON data
    that the store accepted: for a key that names no member of
    [Object.prototype], [has key] is true exactly when v is not null, and
    it changes nothing (a stored null reads as a missing entry); for a key
    that does name one, such as 'constructor', [has key] at any clock
    reading after 1970 is false and removes the slot. *)
Theorem has_after_set (key : string) (v : json) (w : World) :
  quotaExceeded w = false ->
  let w1 := (set CACHE_CONFIGS key v w).2 in
  (inherited key = false ->
     has CACHE_CONFIGS key w1 = (Return (negb (is_null v)), w1)) /\
  (inherited key = true -> 0 < clock w ->
     has CACHE_CONFIGS key w1 = (Return false, without key w1) /\
     storage (without key w1) !! (prefix +:+ key) = None).
Proof.
  intros Hq w1. unfold has. cbv [mbind mret Comp_bind Comp_ret bind ret].
  rewrite get_cases.
  subst w1. rewrite (set_accepted _ _ _ _ Hq). simpl.
  rewrite lookup_insert_eq. split.
  - intros Hk.
    rewrite (stored_text_found CACHE_CONFIGS key _ v (clock w)
               (config_or_default_plain _ _ Hk)).
    rewrite stored_version_matches by exact Hk. rewrite orb_false_r.
    pose proof (CACHE_CONFIGS_duration_positive key) as Hpos. simpl.
    destruct (Z.ltb_spec
                (clock w + duration (default DEFAULT_CONFIG (CACHE_CONFIGS !! key)))
                (clock w)); [lia | reflexivity].
  - intros Hk Hnow. split; [|apply lookup_delete_eq].
    rewrite (stored_text_member _ _ _ _ (CACHE_CONFIGS_not_inherited _ Hk) Hk). simpl.
    destruct (Z.ltb_spec 0 (clock w)); [reflexivity | lia].
Qed.

Lemma has_after_set_witness :
  has CACHE_CONFIGS "notification-counts"
      (set CACHE_CONFIGS "notification-counts" JNull (mkWorld ∅ 0 false true [])).2
  = (Return false,
     (set CACHE_CONFIGS "notification-counts" JNull (mkWorld ∅ 0 false true [])).2).
Proof.
  destruct (has_after_set "notification-counts" JNull (mkWorld ∅ 0 false true []) eq_refl)
    as (Hplain & _).
  exact (Hplain eq_refl).
Defined.

(** X9: [isFresh] looks at the timestamp only: an entry that has expired but
    is younger than the threshold is reported fresh, and left in place,
    while [get] returns null for it. *)
Theorem isFresh_ignores_expiry
    (cfg : gmap string CacheConfig) (key : string) (e : CacheEntry)
    (freshnessThreshold : Z) (w : World) :
  storage w !! (prefix +:+ key) = Some (EntryText e) ->
  expiresAt e < clock w ->
  clock w - timestamp e < freshnessThreshold ->
  isFresh key freshnessThreshold w = (Return true, w) /\
  read cfg key w = Return JNull.
Proof.
  intros Hs Hexp Hage. split.
  - unfold isFresh. js_unfold. rewrite getAge_cases, Hs.
    apply Z.ltb_lt in Hage. rewrite Hage. reflexivity.
  - rewrite read_cases, Hs. apply Z.ltb_lt in Hexp. rewrite Hexp. reflexivity.
Qed.

Lemma isFresh_ignores_expiry_witness :
  isFresh "domainExpiry" (5 * 60 * 1000)
    (at_time (2 * 60 * 1000)
       (set CACHE_CONFIGS "domainExpiry" (JNum 4) (mkWorld ∅ 0 false true [])).2)
  = (Return true,
     at_time (2 * 60 * 1000)
       (set CACHE_CONFIGS "domainExpiry" (JNum 4) (mkWorld ∅ 0 false true [])).2).
Proof.
  refine (proj1 (isFresh_ignores_expiry CACHE_CONFIGS "domainExpiry"
                   (mkEntry (JNum 4) 0 "1.0" (1 * 60 * 1000)) (5 * 60 * 1000) _ _ _ _)).
  - reflexivity.
  - simpl. lia.
  - simpl. lia.
Defined.

(** [isFresh] answers false for a key without a slot and changes nothing. *)
Lemma isFresh_absent (key : string) (freshnessThreshold : Z) (w : World) :
  storage w !! (prefix +:+ key) = None ->
  isFresh key freshnessThreshold w = (Return false, w).
Proof.
  intros Hs. unfold isFresh. js_unfold. rewrite getAge_cases, Hs. reflexivity.
Qed.

(** X10: The refresh policy is safe.  For a key that names no member of
    [Object.prototype], whose duration, the one the table has for it or
    else the default one, is not negative: after a [set key v] that the
    store accepted, at any later clock reading, [shouldRefresh key] answers
    true exactly when twice the age exceeds that duration; whenever it
    answers false, [get key] still returns v; and [get] goes on returning v
    until the expiry. *)
Theorem served_while_no_refresh_needed
    (cfg : gmap string CacheConfig) (key : string) (v : json) (w : World) (now : Z) :
  inherited key = false ->
  quotaExceeded w = false ->
  let c := default DEFAULT_CONFIG (cfg !! key) in
  0 <= duration c ->
  clock w <= now ->
  let w1 := at_time now (set cfg key v w).2 in
  exists refresh : bool,
    shouldRefresh cfg key w1 = (Return refresh, w1) /\
    (refresh = true <-> duration c < 2 * (now - clock w)) /\
    (refresh = false -> get cfg key w1 = (Return v, w1)) /\
    (now <= clock w + duration c -> get cfg key w1 = (Return v, w1)).
Proof.
  intros Hk Hq c Hd Hnow w1.
  pose proof (config_or_default_plain cfg key Hk) as Hconf. fold c in Hconf.
  assert (Hs : storage w1 !! (prefix +:+ key)
                 = Some (EntryText (mkEntry v (clock w) (configVersion c)
                                      (clock w + duration c)))).
  { subst w1. rewrite (set_accepted _ _ _ _ Hq). simpl.
    rewrite lookup_insert_eq, (stored_text_found _ _ _ _ _ Hconf). reflexivity. }
  assert (Hget : now <= clock w + duration c -> get cfg key w1 = (Return v, w1)).
  { intros Hle. rewrite get_cases, Hs. subst c.
    rewrite stored_version_matches by exact Hk. rewrite orb_false_r.
    replace (clock w1) with now by reflexivity. simpl.
    destruct (Z.ltb_spec (clock w + duration (default DEFAULT_CONFIG (cfg !! key))) now);
      [lia | reflexivity]. }
  eexists. split.
  { rewrite shouldRefresh_cases, getAge_cases, Hs, Hconf. reflexivity. }
  replace (clock w1) with now by reflexivity. simpl.
  split; [apply exceeds_half|]. split; [|exact Hget].
  intros Hno. apply Hget.
  destruct (now - clock w >? duration c / 2) eqn:Hgt; [discriminate|].
  assert (Hle : ~ duration c < 2 * (now - clock w)).
  { intros Hlt. apply exceeds_half in Hlt. congruence. }
  lia.
Qed.

Lemma served_while_no_refresh_needed_witness :
  get CACHE_CONFIGS "profile"
      (at_time (30 * 60 * 1000)
         (set CACHE_CONFIGS "profile" (JStr "u1") (mkWorld ∅ 0 false true [])).2)
  = (Return (JStr "u1"),
     at_time (30 * 60 * 1000)
       (set CACHE_CONFIGS "profile" (JStr "u1") (mkWorld ∅ 0 false true [])).2).
Proof.
  destruct (served_while_no_refresh_needed CACHE_CONFIGS "profile" (JStr "u1")
              (mkWorld ∅ 0 false true []) (30 * 60 * 1000) eq_refl eq_refl)
    as (refresh & _ & _ & _ & Hserved).
  - vm_compute. discriminate.
  - vm_compute. discriminate.
  - apply Hserved. vm_compute. discriminate.
Defined.



Lemma set_returns (cfg : gmap string CacheConfig) (key : string) (v : json) (w : World) :
  set cfg key v w = (Return tt, (set cfg key v w).2).
Proof.
  destruct (quotaExceeded w) eqn:Hq.
  - rewrite (set_refused _ _ _ _ Hq).
    destruct (clearExpired_run w) as (s & Hrun & _). rewrite Hrun. reflexivity.
  - rewrite (set_accepted _ _ _ _ Hq). reflexivity.
Qed.

Lemma get_returns (cfg : gmap string CacheConfig) (key : string) (w : World) :
  exists (r : json) (w0 : World), get cfg key w = (Return r, w0).
Proof.
  rewrite get_cases.
  destruct (storage w !! (prefix +:+ key)) as [[| |e|l]|]; eauto;
    destruct (_ || _); eauto.
Qed.

(** X11: [preWarm] never throws.  When [get] finds a truthy value it stops
    there and does not call the fetcher.  When [get] finds nothing, or a
    falsy value such as [0], [false] or the empty string, the fetcher is
    called: what it returns is handed to [set], and if it throws nothing is
    stored and the error is swallowed. *)
Theorem preWarm_fetches_unless_truthy
    (cfg : gmap string CacheConfig) (key : string) (fetcher : Comp json) (w : World) :
  exists (existing : json) (w0 : World),
    get cfg key w = (Return existing, w0) /\
    (truthy_json existing = true -> preWarm cfg key fetcher w = (Return tt, w0)) /\
    (truthy_json existing = false ->
       forall (d : json) (w1 : World), fetcher w0 = (Return d, w1) ->
       preWarm cfg key fetcher w = (Return tt, (set cfg key d w1).2)) /\
    (truthy_json existing = false ->
       forall (e : Error) (w1 : World), fetcher w0 = (Throw e, w1) ->
       preWarm cfg key fetcher w = (Return tt, w1)).
Proof.
  destruct (get_returns cfg key w) as (existing & w0 & Hget).
  exists existing, w0. split; [exact Hget|].
  unfold preWarm. cbv [try_catch mbind mret Comp_bind Comp_ret bind ret].
  rewrite Hget. split; [|split].
  - intros ->. reflexivity.
  - intros -> d w1 Hf. rewrite Hf, set_returns. reflexivity.
  - intros -> e w1 Hf. rewrite Hf. reflexivity.
Qed.

Lemma preWarm_fetches_unless_truthy_witness :
  preWarm CACHE_CONFIGS "notification-counts" (fun w => (Return (JNum 7), w))
    (one_slot "notification-counts" (EntryText (mkEntry (JNum 0) 0 "1.0" 1000)) 5)
  = (Return tt,
     (set CACHE_CONFIGS "notification-counts" (JNum 7)
        (one_slot "notification-counts" (EntryText (mkEntry (JNum 0) 0 "1.0" 1000)) 5)).2).
Proof.
  destruct (preWarm_fetches_unless_truthy CACHE_CONFIGS "notification-counts"
              (fun w => (Return (JNum 7), w))
              (one_slot "notification-counts" (EntryText (mkEntry (JNum 0) 0 "1.0" 1000)) 5))
    as (existing & w0 & Hget & _ & Hfetch & _).
  vm_compute in Hget. injection Hget as <- <-.
  apply Hfetch; reflexivity.
Defined.

(** X12: [invalidateDomainCaches] returns normally and removes the seven slots
    of [DOMAIN_CACHE_KEYS] and nothing else: every other cache key, such as
    'profile' or 'adminSettings', is read as before, and no slot without
    the cache prefix is touched. *)
Theorem invalidateDomainCaches_spares_the_rest
    (cfg : gmap string CacheConfig) (key : string) (w : World) :
  exists w1 : World,
    invalidateDomainCaches w = (Return tt, w1) /\
    (key ∉ DOMAIN_CACHE_KEYS ->
       storage w1 !! (prefix +:+ key) = storage w !! (prefix +:+ key) /\
       read cfg key w1 = read cfg key w) /\
    (forall j : string, String.prefix prefix j = false -> storage w1 !! j = storage w !! j).
Proof.
  assert (Hrun : exists d : list CustomEvent,
            invalidateDomainCaches w =
              (Return tt,
               with_dispatched d
                 (foldl (fun q k => without k q) w DOMAIN_CACHE_KEYS))).
  { unfold invalidateDomainCaches, invalidate. js_unfold.
    destruct (hasWindow w) eqn:Hwin; simpl; rewrite ?Hwin; eexists; reflexivity. }
  destruct Hrun as (d & Hrun). rewrite Hrun. eexists. split; [reflexivity|].
  assert (Hframe : forall j : string,
            (forall k, k ∈ DOMAIN_CACHE_KEYS -> j <> prefix +:+ k) ->
            storage (with_dispatched d (foldl (fun q k => without k q) w DOMAIN_CACHE_KEYS)) !! j
              = storage w !! j).
  { intros j Hj. simpl.
    rewrite !lookup_delete_ne; [reflexivity|..];
      intros Heq; symmetry in Heq; revert Heq; apply Hj;
      unfold DOMAIN_CACHE_KEYS; set_solver. }
  split.
  - intros Hkey.
    assert (Hslot : storage (with_dispatched d (foldl (fun q k => without k q) w DOMAIN_CACHE_KEYS))
                      !! (prefix +:+ key) = storage w !! (prefix +:+ key)).
    { apply Hframe. intros k Hk Heq. apply prefix_inj in Heq. subst k. contradiction. }
    split; [exact Hslot|]. apply read_ext; [exact Hslot | reflexivity].
  - intros j Hj. apply Hframe. intros k _ ->. rewrite prefix_prefixed in Hj. discriminate.
Qed.

Lemma invalidateDomainCaches_spares_the_rest_witness :
  read CACHE_CONFIGS "profile"
    (invalidateDomainCaches
       (one_slot "profile" (EntryText (mkEntry (JStr "u1") 0 "1.1" 100)) 5)).2
  = Return (JStr "u1").
Proof.
  destruct (invalidateDomainCaches_spares_the_rest CACHE_CONFIGS "profile"
              (one_slot "profile" (EntryText (mkEntry (JStr "u1") 0 "1.1" 100)) 5))
    as (w1 & Hrun & Hkeep & _).
  rewrite Hrun. simpl.
  destruct Hkeep as (_ & Hread).
  - unfold DOMAIN_CACHE_KEYS. intros Hin.
    repeat (apply elem_of_cons in Hin as [Hin | Hin]; [discriminate|]).
    apply not_elem_of_nil in Hin. exact Hin.
  - rewrite Hread. reflexivity.
Defined.

Lemma get_twice (cfg : gmap string CacheConfig) (key : string) (w : World) :
  get cfg key (get cfg key w).2 = get cfg key w.
Proof.
  rewrite (get_cases cfg key w).
  destruct (storage w !! (prefix +:+ key)) as [[| |e|l]|] eqn:Hs; simpl.
  - rewrite get_cases, Hs. reflexivity.
  - rewrite get_cases. simpl. rewrite lookup_delete_eq. reflexivity.
  - destruct (_ || _) eqn:Hbad; simpl.
    + rewrite get_cases. simpl. rewrite lookup_delete_eq. reflexivity.
    + rewrite get_cases, Hs, Hbad. reflexivity.
  - destruct (_ || _) eqn:Hbad; simpl.
    + rewrite get_cases. simpl. rewrite lookup_delete_eq. reflexivity.
    + rewrite get_cases, Hs, Hbad. reflexivity.
  - rewrite get_cases, Hs. reflexivity.
Qed.

(** X13: Reading twice is reading once: a second [get] of the same key at the
    same clock reading returns what the first returned and changes nothing
    further, and so does a [has] after a [get]. *)
Theorem get_is_idempotent (cfg : gmap string CacheConfig) (key : string) (w : World) :
  get cfg key (get cfg key w).2 = get cfg key w /\
  (has cfg key (get cfg key w).2).2 = (get cfg key w).2.
Proof.
  split; [apply get_twice|].
  unfold has. cbv [mbind mret Comp_bind Comp_ret bind ret].
  rewrite get_twice.
  destruct (get_returns cfg key w) as (r & w0 & Hget). rewrite Hget. reflexivity.
Qed.

End CacheManagerRestProofs.

(** ** Further properties of the notification provider *)

Module NotificationContextRestProofs.
Import NotificationContext NotificationContextRest.

Lemma copy_all_spec (prev : list CommentNotification) (next : nat) :
  (copy_all prev next).2 = (next + length prev)%nat /\
  Forall2
    (fun c c' => same_fields c c' /\ (next <= oid c' < next + length prev)%nat)
    prev (copy_all prev next).1.
Proof.
  revert next. induction prev as [|c rest IH]; intros next; simpl.
  - split; [lia | constructor].
  - destruct (IH (S next)) as [Hnext Hall].
    destruct (copy_all rest (S next)) as [rest' next']. simpl in *.
    split; [lia|]. constructor.
    + split; [reflexivity | simpl; lia].
    + eapply Forall2_impl; [exact Hall|]. simpl.
      intros a b (Hf & Hfresh). split; [exact Hf | lia].
Qed.

(** X14: When a user is signed in and the backend update reports no error,
    [clearAllComments] sets [unreadCommentCount] to 0, replaces every
    element of the list by a new object with the same fields, and removes
    the cache slot 'comment-notifications'; on a backend error, or with no
    user, nothing changes. *)
Theorem clearAllComments_effect (u : string) (p : Provider) :
  user p = Some u ->
  let p' := clearAllComments false p in
  unreadCommentCount p' = 0 /\
  Forall2
    (fun c c' => same_fields c c' /\ (next_oid p <= oid c' < next_oid p')%nat)
    (commentNotifications p) (commentNotifications p') /\
  JS.storage (browser p') !! (CacheManager.prefix +:+ "comment-notifications") = None /\
  clearAllComments true p = p /\
  clearAllComments false (with_user None p) = with_user None p.
Proof.
  intros Hu p'. subst p'. unfold clearAllComments. rewrite Hu.
  destruct (copy_all_spec (commentNotifications p) (next_oid p)) as [Hnext Hall].
  destruct (copy_all (commentNotifications p) (next_oid p)) as [comments next].
  simpl in *. subst next.
  split; [reflexivity|]. split; [exact Hall|].
  split; [apply lookup_delete_eq|]. split; reflexivity.
Qed.

Lemma clearAllComments_effect_witness :
  unreadCommentCount (clearAllComments false two_comments) = 0 /\
  commentNotifications (clearAllComments false two_comments)
    = [spread comment_a 2; spread comment_b 3].
Proof.
  destruct (clearAllComments_effect "u1" two_comments eq_refl) as (Hcount & _).
  split; [exact Hcount | reflexivity].
Defined.

(** X15: Each successful [markCommentAsRead] takes one off the counter, also
    for a comment that was marked before or is not in the list: after
    n > 0 calls the counter is [max 0 (c - n)]. *)
Theorem markCommentAsRead_counts_every_call (commentId u : string) (n : nat) (p : Provider) :
  user p = Some u ->
  (0 < n)%nat ->
  let p' := Nat.iter n (markCommentAsRead commentId false) p in
  user p' = Some u /\
  unreadCommentCount p' = Z.max 0 (unreadCommentCount p - Z.of_nat n).
Proof.
  intros Hu Hn.
  assert (Hstep : forall q, user q = Some u ->
            user (markCommentAsRead commentId false q) = Some u /\
            unreadCommentCount (markCommentAsRead commentId false q)
              = Z.max 0 (unreadCommentCount q - 1)).
  { intros q Hq. unfold markCommentAsRead. rewrite Hq.
    destruct (copy_matching commentId (commentNotifications q) (next_oid q)).
    simpl. split; [reflexivity | reflexivity]. }
  destruct n as [|n]; [lia|]. clear Hn.
  induction n as [|n IH].
  - simpl. destruct (Hstep p Hu) as (Hu' & Hc). split; [exact Hu'|].
    rewrite Hc. reflexivity.
  - destruct IH as (Hu' & Hc).
    change (Nat.iter (S (S n)) (markCommentAsRead commentId false) p)
      with (markCommentAsRead commentId false
              (Nat.iter (S n) (markCommentAsRead commentId false) p)).
    destruct (Hstep _ Hu') as (Hu'' & Hc'). cbv zeta. split; [exact Hu''|].
    rewrite Hc', Hc. lia.
Qed.

Lemma markCommentAsRead_counts_every_call_witness :
  unreadCommentCount
    (Nat.iter 3 (markCommentAsRead "a" false)
       (mkProvider (Some "u1") false [comment_a; comment_b] 2 [] [] [] 2%nat fresh_browser))
  = 0.
Proof.
  destruct (markCommentAsRead_counts_every_call "a" "u1" 3
              (mkProvider (Some "u1") false [comment_a; comment_b] 2 [] [] [] 2%nat fresh_browser)
              eq_refl ltac:(lia)) as (_ & Hc).
  rewrite Hc. reflexivity.
Defined.

Lemma or_else_taken (a b : option string) : taken b -> taken (or_else a b).
Proof.
  intros Hb. unfold or_else. destruct a as [s|]; [|exact Hb].
  destruct (String.eqb_spec s ""); [exact Hb|]. exists s. split; [reflexivity | assumption].
Qed.

Lemma text_of_taken (o : option string) : taken o -> text_of o <> "".
Proof. intros (s & -> & Hs). exact Hs. Qed.

Lemma taken_literal (s : string) : s <> "" -> taken (Some s).
Proof. intros Hs. exists s. split; [reflexivity | exact Hs]. Qed.

Lemma processedComments_ids (notifications : list NotificationRow) (next : nat) :
  map id (processedComments notifications next) = map row_id notifications /\
  length (processedComments notifications next) = length notifications.
Proof.
  revert next. induction notifications as [|n rest IH]; intros next; simpl.
  - split; reflexivity.
  - destruct (IH (S next)) as [Hids Hlen]. rewrite Hids, Hlen. split; reflexivity.
Qed.

(** X16: The comments built from the rows keep the rows' ids and order, one
    comment per row, and always have something to show: the text, the
    author and the project name of a comment are never empty, whatever
    columns and joins of its row are null or empty. *)
Theorem processed_comments_have_text (notifications : list NotificationRow) (next : nat) :
  map id (processedComments notifications next) = map row_id notifications /\
  Forall
    (fun c => text c <> "" /\ author c <> "" /\ projectName c <> "")
    (processedComments notifications next).
Proof.
  revert next. induction notifications as [|n rest IH]; intros next; simpl.
  - split; [reflexivity | constructor].
  - destruct (IH (S next)) as [Hids Hall]. split; [rewrite Hids; reflexivity|].
    constructor; [|exact Hall]. simpl.
    split; [|split]; apply text_of_taken; repeat apply or_else_taken;
      apply taken_literal; discriminate.
Qed.

Lemma find_row_id (all : list NotificationRow) (n : NotificationRow) :
  NoDup (map row_id all) -> n ∈ all ->
  find (fun m => String.eqb (row_id m) (row_id n)) all = Some n.
Proof.
  induction all as [|m all IH]; intros Hnd Hin.
  - apply not_elem_of_nil in Hin. contradiction.
  - simpl in *. apply NoDup_cons in Hnd as [Hm Hnd].
    apply elem_of_cons in Hin as [-> | Hin].
    + rewrite String.eqb_refl. reflexivity.
    + destruct (String.eqb_spec (row_id m) (row_id n)) as [Heq|Hne]; [|auto].
      exfalso. apply Hm. rewrite Heq. apply list_elem_of_fmap. exists n. auto.
Qed.

Lemma unread_of_suffix (all rest : list NotificationRow) (next : nat) :
  (forall n, n ∈ rest ->
     find (fun m => String.eqb (row_id m) (row_id n)) all = Some n) ->
  length (filter (fun comment => counts_unread all comment = true)
                 (processedComments rest next))
    = length (filter (fun n => is_read n = false) rest).
Proof.
  revert next. induction rest as [|n rest IH]; intros next Hfind; [reflexivity|].
  simpl. rewrite !filter_cons.
  assert (Hn : counts_unread all (process n next) = negb (is_read n)).
  { unfold counts_unread. simpl. rewrite (Hfind n); [reflexivity | apply list_elem_of_here]. }
  assert (IH' := IH (S next) (fun m Hm => Hfind m (list_elem_of_further _ _ _ Hm))).
  rewrite Hn. destruct (is_read n); simpl;
    repeat case_decide; try congruence; simpl; rewrite IH'; reflexivity.
Qed.

(** X17: The unread count is at most the number of rows; when the rows have
    distinct ids it is the number of rows that are not read. *)
Theorem unreadCount_counts_unread_rows (notifications : list NotificationRow) (next : nat) :
  (unreadCount notifications next <= length notifications)%nat /\
  (NoDup (map row_id notifications) ->
   unreadCount notifications next
     = length (filter (fun n => is_read n = false) notifications)).
Proof.
  unfold unreadCount. split.
  - etransitivity; [apply length_filter|].
    apply Nat.eq_le_incl.
    apply (proj2 (processedComments_ids notifications next)).
  - intros Hnd. apply unread_of_suffix. intros n Hn. apply find_row_id; assumption.
Qed.

Lemma unreadCount_counts_unread_rows_witness :
  unreadCount [row_read; row_unread] 0 = 1%nat.
Proof.
  destruct (unreadCount_counts_unread_rows [row_read; row_unread] 0) as (_ & Hdistinct).
  rewrite Hdistinct; [reflexivity|].
  apply NoDup_cons. split; [|apply NoDup_singleton].
  intros Hin. apply list_elem_of_singleton in Hin. discriminate.
Defined.

Lemma handle_messages (s : Subscription) (payload : Payload) (q : Provider) :
  (if String.eqb (table (handler s)) "messages" then handle s payload q else q)
  = if decide (handler s = messageSubscription)
    then call loadNotificationAndMessageCounts (now q) q
    else q.
Proof. destruct s as [h c]. destruct h; reflexivity. Qed.

Lemma deliver_messages (payload : Payload) (subs : list Subscription) (q : Provider) :
  let q' :=
    fold_left
      (fun q s => if String.eqb (table (handler s)) "messages" then handle s payload q else q)
      subs q in
  timers q' = timers q /\
  loads q'
    = (loads q ++
       replicate (length (filter (fun s => handler s = messageSubscription) subs))
                 (loadNotificationAndMessageCounts, now q))%list /\
  with_loads (loads q) q' = q.
Proof.
  revert q. induction subs as [|s subs IH]; intros q; cbn [fold_left].
  - cbv zeta. rewrite app_nil_r. destruct q. repeat split.
  - rewrite handle_messages, filter_cons. case_decide; [|apply IH].
    destruct (IH (call loadNotificationAndMessageCounts (now q) q)) as (Ht & Hl & Hq).
    cbv zeta. rewrite Ht, Hl. split; [reflexivity|]. split.
    + cbn [length replicate]. unfold call at 1 2. simpl.
      rewrite <- app_assoc. reflexivity.
    + apply (f_equal (with_loads (loads q))) in Hq.
      destruct q; exact Hq.
Qed.

(** X18: A change of the messages table is never held back: whatever
    [isSaving] is or was, every message handler calls
    [loadNotificationAndMessageCounts] at once, no timer is set, and
    nothing else of the provider changes. *)
Theorem messages_change_reloads_at_once (payload : Payload) (p : Provider) :
  let p' := postgres_changes "messages" payload p in
  timers p' = timers p /\
  loads p'
    = (loads p ++
       replicate (listeners messageSubscription p)
                 (loadNotificationAndMessageCounts, now p))%list /\
  with_loads (loads p) p' = p.
Proof.
  unfold postgres_changes, listeners. apply deliver_messages.
Qed.

(** A change of a table other than 'domains', 'notifications' and
    'messages' reaches no handler: the provider stays as it is. *)
Theorem other_tables_are_ignored (tableName : string) (payload : Payload) (p : Provider) :
  tableName <> "domains" -> tableName <> "notifications" -> tableName <> "messages" ->
  postgres_changes tableName payload p = p.
Proof.
  intros Hd Hn Hm. unfold postgres_changes.
  generalize (subscriptions p) as subs. intros subs.
  induction subs as [|s subs IH]; [reflexivity|]. simpl.
  replace (String.eqb (table (handler s)) tableName) with false; [exact IH|].
  symmetry. apply String.eqb_neq. destruct (handler s); simpl; congruence.
Qed.

Lemma other_tables_are_ignored_witness :
  postgres_changes "projects" UPDATE mounted = mounted.
Proof.
  apply other_tables_are_ignored; discriminate.
Defined.

(** [clearCacheAndRefresh] removes the four cache slots of the provider's
    [CACHE_KEYS], leaves every other slot as it is, and then calls each of
    the three loaders once. *)
Theorem clearCacheAndRefresh_effect (p : Provider) :
  let p' := clearCacheAndRefresh p in
  (forall key : string, key ∈ CACHE_KEYS ->
     JS.storage (browser p') !! (CacheManager.prefix +:+ key) = None) /\
  (forall j : string,
     (forall key : string, key ∈ CACHE_KEYS -> j <> CacheManager.prefix +:+ key) ->
     JS.storage (browser p') !! j = JS.storage (browser p) !! j) /\
  loads p'
    = (loads p ++
       [ (loadDomainExpiryData, now p);
         (loadNotificationAndMessageCounts, now p);
         (loadCommentNotifications, now p) ])%list /\
  commentNotifications p' = commentNotifications p /\
  unreadCommentCount p' = unreadCommentCount p.
Proof.
  cbv zeta. unfold clearCacheAndRefresh, refreshAllData, call, now. simpl.
  split; [|split; [|split; [|split; reflexivity]]].
  - intros key Hkey. unfold CACHE_KEYS in Hkey.
    repeat (apply elem_of_cons in Hkey as [-> | Hkey];
            [ repeat first [ apply lookup_delete_eq
                           | rewrite lookup_delete_ne by discriminate ]
            | ]).
    apply not_elem_of_nil in Hkey. contradiction.
  - intros j Hj.
    rewrite !lookup_delete_ne; [reflexivity|..];
      intros Heq; symmetry in Heq; revert Heq; apply Hj;
      unfold CACHE_KEYS; set_solver.
  - rewrite <- !app_assoc. reflexivity.
Qed.

(** X19: The route that the notification dropdown takes before it reloads,
    [invalidateOnDataChange('notifications', 'REFRESH')], removes none of
    the provider's own cache slots: each of its [CACHE_KEYS] is read
    afterwards as before. *)
Theorem notifications_route_spares_provider_caches
    (cfg : gmap string CacheManager.CacheConfig) (operation key : string) (w : JS.World) :
  key ∈ CACHE_KEYS ->
  let w1 := (CacheManager.invalidateOnDataChange "notifications" operation w).2 in
  JS.storage w1 !! (CacheManager.prefix +:+ key) = JS.storage w !! (CacheManager.prefix +:+ key) /\
  CacheManagerRest.read cfg key w1 = CacheManagerRest.read cfg key w.
Proof.
  intros Hkey w1.
  assert (Hslot : JS.storage w1 !! (CacheManager.prefix +:+ key)
                    = JS.storage w !! (CacheManager.prefix +:+ key)).
  { subst w1. simpl. unfold CACHE_KEYS in Hkey.
    repeat (apply elem_of_cons in Hkey as [-> | Hkey];
            [ rewrite !lookup_delete_ne by discriminate; reflexivity | ]).
    apply not_elem_of_nil in Hkey. contradiction. }
  split; [exact Hslot|].
  apply CacheManagerRestProofs.read_ext; [exact Hslot | reflexivity].
Qed.

Lemma notifications_route_spares_provider_caches_witness :
  CacheManagerRest.read CacheManager.CACHE_CONFIGS "notification-counts"
    (CacheManager.invalidateOnDataChange "notifications" "REFRESH"
       (CacheManager.one_slot "notification-counts"
          (JS.EntryText (JS.mkEntry (JS.JNum 3) 0 "1.0" 100)) 5)).2
  = JS.Return (JS.JNum 3).
Proof.
  destruct (notifications_route_spares_provider_caches CacheManager.CACHE_CONFIGS
              "REFRESH" "notification-counts"
              (CacheManager.one_slot "notification-counts"
                 (JS.EntryText (JS.mkEntry (JS.JNum 3) 0 "1.0" 100)) 5))
    as (_ & Hread).
  - unfold CACHE_KEYS. apply list_elem_of_further, list_elem_of_here.
  - rewrite Hread. reflexivity.
Defined.

End NotificationContextRestProofs.

(** ** Properties of the notification dropdown *)

Module NotificationDropdownProofs.
Import NotificationDropdown.

Lemma compare_before (a b : Notification) : compare a b <= 0 <-> before a b.
Proof.
  unfold compare, before, is_comment.
  destruct (String.eqb (type a) "comment"), (String.eqb (type b) "comment"); simpl;
    split; try lia; try (intros [H1 H2]; try discriminate (H1 eq_refl);
                         try (specialize (H2 eq_refl)); lia);
    intros H; split; intros; try discriminate; try reflexivity; lia.
Qed.

Lemma before_total (a b : Notification) : before a b \/ before b a.
Proof.
  rewrite <- !compare_before. unfold compare.
  destruct (String.eqb (type a) "comment"), (String.eqb (type b) "comment"); simpl; lia.
Qed.

Lemma before_trans (a b c : Notification) : before a b -> before b c -> before a c.
Proof.
  unfold before.
  destruct (is_comment a), (is_comment b), (is_comment c);
    intros [H1 H2] [H3 H4]; split; intros; try reflexivity; try discriminate;
    try (discriminate (H1 eq_refl)); try (discriminate (H3 eq_refl));
    try (specialize (H2 eq_refl)); try (specialize (H4 eq_refl)); lia.
Qed.

Lemma insert_perm (x : Notification) (l : list Notification) :
  Permutation (insert x l) (x :: l).
Proof.
  induction l as [|y l IH]; simpl; [reflexivity|].
  destruct (compare x y <=? 0); [reflexivity|].
  rewrite IH. apply perm_swap.
Qed.

Lemma insert_sorted (x : Notification) (l : list Notification) :
  StronglySorted before l -> StronglySorted before (insert x l).
Proof.
  induction l as [|y l IH]; intros Hs; simpl.
  - constructor; constructor.
  - apply StronglySorted_inv in Hs as [Hl Hy].
    destruct (Z.leb_spec (compare x y) 0) as [Hle|Hgt].
    + apply compare_before in Hle. constructor; [constructor; assumption|].
      constructor; [exact Hle|].
      eapply Forall_impl; [exact Hy|]. intros z Hz. exact (before_trans _ _ _ Hle Hz).
    + assert (Hyx : before y x).
      { destruct (before_total x y) as [H|H]; [|exact H].
        apply compare_before in H. lia. }
      constructor; [apply IH; exact Hl|].
      rewrite insert_perm. constructor; assumption.
Qed.

(** X20: The list the dropdown shows holds the rows that were loaded, each
    once, with every comment before every other notification and, within
    the comments and within the rest, the newer before the older. *)
Theorem sort_puts_comments_first (data : list Notification) :
  Permutation (sort data) data /\ StronglySorted before (sort data).
Proof.
  unfold sort. induction data as [|x data [Hperm Hsorted]]; simpl.
  - split; [reflexivity | constructor].
  - split; [rewrite insert_perm, Hperm; reflexivity | apply insert_sorted; exact Hsorted].
Qed.

(** X21: [markAsRead] is idempotent, never raises the unread count, touches
    the elements with the given id only, and leaves none of them unread;
    on a backend error nothing changes. *)
Theorem markAsRead_marks_only_that_id (notificationId : string) (d : Dropdown) :
  let d' := markAsRead notificationId false d in
  markAsRead notificationId false d' = d' /\
  (unreadCount d' <= unreadCount d)%nat /\
  Forall2
    (fun n n' => if String.eqb (id n) notificationId then n' = read_copy n else n' = n)
    (notifications d) (notifications d') /\
  Forall (fun n' => id n' = notificationId -> is_read n' = true) (notifications d') /\
  totalCount d' = totalCount d /\
  markAsRead notificationId true d = d.
Proof.
  cbv zeta. unfold markAsRead, unreadCount. simpl.
  destruct d as [l total]. simpl.
  split; [|split; [|split; [|split; [|split; reflexivity]]]].
  - f_equal. rewrite map_map. apply map_ext. intros n.
    destruct (String.eqb (id n) notificationId) eqn:Hn; simpl; rewrite Hn; reflexivity.
  - induction l as [|n l IH]; [reflexivity|]. cbn [map]. rewrite !filter_cons.
    destruct (String.eqb (id n) notificationId); destruct n as [i u t ti c li r ca];
      destruct r; simpl; lia.
  - induction l as [|n l IH]; constructor; [|exact IH].
    destruct (String.eqb (id n) notificationId); reflexivity.
  - apply Forall_forall. intros n' Hin Hid.
    apply list_elem_of_fmap in Hin as (n & -> & _).
    destruct (String.eqb_spec (id n) notificationId) as [Heq|Hne]; [reflexivity|].
    contradiction.
Qed.

(** When a user is signed in and the backend reports no error,
    [dismissAll] leaves no notification unread and keeps the list
    otherwise: the same length, and in each place the same notification
    marked read. *)
Theorem dismissAll_leaves_none_unread (d : Dropdown) :
  let d' := dismissAll true false d in
  unreadCount d' = 0%nat /\
  notifications d' = map read_copy (notifications d) /\
  length (notifications d') = length (notifications d) /\
  totalCount d' = totalCount d /\
  dismissAll false false d = d /\ dismissAll true true d = d.
Proof.
  cbv zeta. unfold dismissAll, unreadCount. simpl.
  split; [|split; [reflexivity|split; [apply length_map|repeat split]]].
  induction (notifications d) as [|n l IH]; [reflexivity|].
  cbn [map]. rewrite filter_cons. simpl. exact IH.
Qed.

Lemma filter_absent (notificationId : string) (l : list Notification) :
  notificationId ∉ map id l ->
  filter (fun n => id n <> notificationId) l = l.
Proof.
  induction l as [|n l IH]; intros Hnot; [reflexivity|].
  simpl in Hnot. apply not_elem_of_cons in Hnot as [Hne Hnot].
  rewrite filter_cons. case_decide; [|congruence]. rewrite (IH Hnot). reflexivity.
Qed.

Lemma filter_present (notificationId : string) (l : list Notification) :
  notificationId ∈ map id l ->
  (length (filter (fun n => id n <> notificationId) l) < length l)%nat.
Proof.
  induction l as [|n l IH]; intros Hin; [apply elem_of_nil in Hin; contradiction|].
  rewrite filter_cons. simpl in *. case_decide as Hn.
  - apply elem_of_cons in Hin as [Heq | Hin]; [congruence|].
    simpl. specialize (IH Hin). lia.
  - pose proof (length_filter (fun n => id n <> notificationId) l). lia.
Qed.

(** X22: [deleteNotification] leaves no element with the given id and always
    takes one off [totalCount].  While the id is among the shown ones, the
    number shown stays within [totalCount]; for an id that is not shown the
    list stays as it is and [totalCount] is lowered all the same. *)
Theorem deleteNotification_counts (notificationId : string) (d : Dropdown) :
  let d' := deleteNotification notificationId false d in
  (notificationId ∉ map id (notifications d')) /\
  totalCount d' = totalCount d - 1 /\
  (notificationId ∈ map id (notifications d) ->
   Z.of_nat (length (notifications d)) <= totalCount d ->
   Z.of_nat (length (notifications d')) <= totalCount d') /\
  (notificationId ∉ map id (notifications d) ->
   notifications d' = notifications d) /\
  deleteNotification notificationId true d = d.
Proof.
  cbv zeta. unfold deleteNotification. simpl.
  split; [|split; [reflexivity|split; [|split; [|reflexivity]]]].
  - intros Hin. apply list_elem_of_fmap in Hin as (n & Hid & Hn).
    apply list_elem_of_filter in Hn as [Hne _]. congruence.
  - intros Hin Hle. pose proof (filter_present _ _ Hin). lia.
  - apply filter_absent.
Qed.

Lemma deleteNotification_counts_witness :
  deleteNotification "n9" false (mkDropdown [older_comment] 1)
    = mkDropdown [older_comment] 0.
Proof.
  destruct (deleteNotification_counts "n9" (mkDropdown [older_comment] 1))
    as (_ & Htotal & _ & Hsame & _).
  assert (Hnot : "n9" ∉ map id (notifications (mkDropdown [older_comment] 1))).
  { simpl. intros Hin. apply list_elem_of_singleton in Hin. discriminate. }
  specialize (Hsame Hnot).
  destruct (deleteNotification "n9" false (mkDropdown [older_comment] 1)) as [l t].
  simpl in *. subst. reflexivity.
Defined.

End NotificationDropdownProofs.

(** ** Properties of the profile loading *)

Module AuthProofs.
Import JS CacheManager CacheManagerRest Auth CacheManagerProofs.

Lemma retryDelay_nonneg (retryCount : nat) : 0 <= retryDelay retryCount.
Proof.
  unfold retryDelay. pose proof (Z.pow_nonneg 2 (Z.of_nat retryCount) ltac:(lia)). lia.
Qed.

Lemma delays_nonneg (left retryCount : nat) : 0 <= delays left retryCount.
Proof.
  revert retryCount. induction left as [|left IH]; intros retryCount; simpl; [lia|].
  pose proof (retryDelay_nonneg retryCount). specialize (IH (S retryCount)). lia.
Qed.

(** The delay before a retry starts at 500 ms, doubles, and is capped at
    2000 ms: it never decreases from one retry to the next, and from the
    third on it is the cap. *)
Theorem retryDelay_capped (retryCount : nat) :
  500 <= retryDelay retryCount <= 2000 /\
  retryDelay retryCount <= retryDelay (S retryCount) /\
  ((2 <= retryCount)%nat -> retryDelay retryCount = 2000).
Proof.
  unfold retryDelay.
  assert (Hpow : 1 <= 2 ^ Z.of_nat retryCount) by (apply Z.pow_le_mono_r with (b := 0); lia).
  assert (Hstep : 2 ^ Z.of_nat (S retryCount) = 2 * 2 ^ Z.of_nat retryCount).
  { rewrite Nat2Z.inj_succ, Z.pow_succ_r by lia. reflexivity. }
  split; [lia|]. split; [lia|].
  intros Hge.
  assert (4 <= 2 ^ Z.of_nat retryCount).
  { change 4 with (2 ^ 2). apply Z.pow_le_mono_r; lia. }
  lia.
Qed.

Lemma retryDelay_capped_witness : retryDelay 5 = 2000.
Proof.
  destruct (retryDelay_capped 5) as (_ & _ & Hcap). apply Hcap. lia.
Defined.

Ltac open_attempt st userId backend retryCount :=
  simpl;
  destruct (get CACHE_CONFIGS "profile" (world st)) as [cached w1];
  destruct (getAge "profile" w1) as [age w2];
  (destruct (isCacheValid _ userId _); [simpl; lia|]);
  destruct (backend retryCount) as [answer took];
  (destruct (failure answer) as [message|]; [|simpl; lia]).

Lemma attempt_bounded (backend : Backend) (userId : string) (left retryCount : nat)
    (st : AuthState) :
  let st' := (attempt backend userId left retryCount st).2 in
  (queries st <= queries st' <= queries st + left + 1)%nat /\
  waited st <= waited st' <= waited st + delays left retryCount.
Proof.
  revert retryCount st. induction left as [|n IH]; intros retryCount st.
  - open_attempt st userId backend retryCount.
    destruct (get CACHE_CONFIGS "profile" _) as [fallbackCache w4].
    destruct (_ && _); simpl; lia.
  - pose proof (delays_nonneg n (S retryCount)) as Hd.
    pose proof (retryDelay_nonneg retryCount) as Hr.
    open_attempt st userId backend retryCount.
    destruct (isTransientError message).
    + match goal with |- context [attempt backend userId n (S retryCount) ?st1] =>
        specialize (IH (S retryCount) st1) end.
      cbv zeta in IH. simpl in IH. lia.
    + destruct (get CACHE_CONFIGS "profile" _) as [fallbackCache w4].
      destruct (_ && _); simpl; lia.
Qed.

(** X23: A call of [loadProfileWithCache] sends at most [maxRetries -
    retryCount + 1] profile queries, whatever the backend answers; from
    [retryCount = 0] that is at most three queries and at most 1500 ms of
    waiting between them. *)
Theorem loadProfileWithCache_retries_are_bounded
    (backend : Backend) (userId : string) (retryCount : nat) (st : AuthState) :
  let st' := (loadProfileWithCache backend userId retryCount st).2 in
  (queries st' <= queries st + (maxRetries - retryCount) + 1)%nat /\
  (retryCount = 0%nat ->
   (queries st' <= queries st + 3)%nat /\ waited st' <= waited st + 1500).
Proof.
  cbv zeta. unfold loadProfileWithCache.
  pose proof (attempt_bounded backend userId (maxRetries - retryCount) retryCount st) as H.
  cbv zeta in H. split; [lia|].
  intros ->. change (maxRetries - 0)%nat with 2%nat in *.
  change (delays 2 0) with 1500 in H. lia.
Qed.

Lemma loadProfileWithCache_retries_are_bounded_witness :
  (queries (loadProfileWithCache (always (Rejected "TypeError" "Failed to fetch"))
              "u1" 0 signed_out).2 <= 3)%nat /\
  waited (loadProfileWithCache (always (Rejected "TypeError" "Failed to fetch"))
            "u1" 0 signed_out).2 <= 1500.
Proof.
  destruct (loadProfileWithCache_retries_are_bounded
              (always (Rejected "TypeError" "Failed to fetch")) "u1" 0 signed_out)
    as (_ & Hzero).
  exact (Hzero eq_refl).
Defined.

Lemma profile_config :
  find_config CACHE_CONFIGS "profile" = Some (Own (mkConfig (45 * 60 * 1000) "1.1")).
Proof. reflexivity. Qed.

(** What the loader reads at the start of an attempt when the profile
    slot holds an entry of the current version that has not expired. *)
Lemma profile_served (e : CacheEntry) (w : World) :
  storage w !! (prefix +:+ "profile") = Some (EntryText e) ->
  version e = "1.1" ->
  clock w <= expiresAt e ->
  get CACHE_CONFIGS "profile" w = (Return (data e), w) /\
  getAge "profile" w = (Return (Some (clock w - timestamp e)), w).
Proof.
  intros Hs Hv Hexp. split.
  - rewrite get_cases, Hs, profile_config. unfold version_mismatch. simpl.
    rewrite Hv. simpl.
    destruct (Z.ltb_spec (expiresAt e) (clock w)); [lia | reflexivity].
  - rewrite getAge_cases, Hs. reflexivity.
Qed.

Lemma cache_hit
    (backend : Backend) (userId : string) (left retryCount : nat) (e : CacheEntry)
    (st : AuthState) :
  storage (world st) !! (prefix +:+ "profile") = Some (EntryText e) ->
  version e = "1.1" ->
  clock (world st) <= expiresAt e ->
  clock (world st) - timestamp e < 10 * 60 * 1000 ->
  truthy_json (data e) = true ->
  has_id userId (data e) = true ->
  attempt backend userId left retryCount st
    = (Resolved, mkAuth (Some (data e)) (world st) (queries st) (waited st)).
Proof.
  intros Hs Hv Hexp Hage Htruthy Hid.
  destruct (profile_served e (world st) Hs Hv Hexp) as (Hget & Hgetage).
  destruct left; simpl; rewrite Hget, Hgetage;
    unfold isCacheValid; rewrite Htruthy, Hid; simpl;
    apply Z.ltb_lt in Hage; rewrite Hage; reflexivity.
Qed.

(** X24: A cached profile of the asked user that is of the current version, not
    expired and younger than ten minutes is used as it is: the loader
    resolves with it, sends no query, waits for nothing and leaves the
    store alone, whatever the backend would answer. *)
Theorem loadProfileWithCache_uses_fresh_cache
    (backend : Backend) (userId : string) (retryCount : nat) (e : CacheEntry)
    (st : AuthState) :
  storage (world st) !! (prefix +:+ "profile") = Some (EntryText e) ->
  version e = "1.1" ->
  clock (world st) <= expiresAt e ->
  clock (world st) - timestamp e < 10 * 60 * 1000 ->
  truthy_json (data e) = true ->
  has_id userId (data e) = true ->
  loadProfileWithCache backend userId retryCount st
    = (Resolved, mkAuth (Some (data e)) (world st) (queries st) (waited st)).
Proof.
  intros Hs Hv Hexp Hage Htruthy Hid. unfold loadProfileWithCache.
  apply cache_hit; assumption.
Qed.

Lemma loadProfileWithCache_uses_fresh_cache_witness :
  loadProfileWithCache (always (Failed "PGRST301" "down")) "u1" 0 cached_u1
    = (Resolved, mkAuth (Some profile_u1) (world cached_u1) 0 0).
Proof.
  apply (loadProfileWithCache_uses_fresh_cache _ "u1" 0
           (mkEntry profile_u1 0 "1.1" (45 * 60 * 1000)) cached_u1);
    try reflexivity; simpl; lia.
Defined.

(** X25: An error that is not classed as transient is not retried: one query
    is sent and nothing is waited for.  With no cached profile the loader
    then rejects with the error and leaves the profile state as it was;
    with a cached profile of the asked user that is too old to be used
    unasked but has not expired when the answer arrives, it resolves with
    that profile. *)
Theorem loadProfileWithCache_gives_up_on_other_errors
    (backend : Backend) (userId message : string) (st : AuthState) :
  failure (backend 0%nat).1 = Some message ->
  isTransientError message = false ->
  let took := (backend 0%nat).2 in
  (storage (world st) !! (prefix +:+ "profile") = None ->
   loadProfileWithCache backend userId 0 st
     = (RejectedWith message,
        mkAuth (profile st) (at_time (clock (world st) + took) (world st))
          (S (queries st)) (waited st))) /\
  (forall e : CacheEntry,
     storage (world st) !! (prefix +:+ "profile") = Some (EntryText e) ->
     version e = "1.1" ->
     truthy_json (data e) = true -> has_id userId (data e) = true ->
     10 * 60 * 1000 <= clock (world st) - timestamp e ->
     0 <= took -> clock (world st) + took <= expiresAt e ->
     loadProfileWithCache backend userId 0 st
       = (Resolved,
          mkAuth (Some (data e)) (at_time (clock (world st) + took) (world st))
            (S (queries st)) (waited st))).
Proof.
  intros Hfail Hnot. cbv zeta. unfold loadProfileWithCache. simpl.
  destruct (backend 0%nat) as [answer took]. simpl in *. split.
  - intros Hs. rewrite get_cases, Hs, getAge_cases, Hs. simpl.
    rewrite Hfail, Hnot. rewrite get_cases. simpl. rewrite Hs. reflexivity.
  - intros e Hs Hv Htruthy Hid Hold Htook Hexp.
    destruct (profile_served e (world st) Hs Hv ltac:(lia)) as (Hget & Hgetage).
    rewrite Hget, Hgetage. unfold isCacheValid. rewrite Htruthy, Hid. simpl.
    destruct (Z.ltb_spec (clock (world st) - timestamp e) (10 * 60 * 1000)); [lia|].
    rewrite Hfail, Hnot.
    destruct (profile_served e (at_time (clock (world st) + took) (world st)) Hs Hv Hexp)
      as (Hget' & _).
    rewrite Hget', Htruthy, Hid. reflexivity.
Qed.

Lemma loadProfileWithCache_gives_up_on_other_errors_witness :
  loadProfileWithCache (always (Failed "PGRST301" "down")) "u1" 0 signed_out
    = (RejectedWith "Unable to connect to database",
       mkAuth None (mkWorld ∅ 100 false true []) 1 0).
Proof.
  destruct (loadProfileWithCache_gives_up_on_other_errors
              (always (Failed "PGRST301" "down")) "u1"
              "Unable to connect to database" signed_out eq_refl eq_refl)
    as (Hnone & _).
  exact (Hnone eq_refl).
Defined.



(** X27: A fetched profile is served from the cache afterwards: when the
    loader starts without a cached profile, the query brings the profile of
    the asked user and the store accepts the write, the profile is stored,
    and every call within the next ten minutes resolves with it without
    asking the backend. *)
Theorem fetched_profile_is_cached
    (backend later : Backend) (userId : string) (d : json) (st : AuthState) (dt : Z) :
  storage (world st) !! (prefix +:+ "profile") = None ->
  quotaExceeded (world st) = false ->
  (backend 0%nat).1 = Data d ->
  truthy_json d = true ->
  has_id userId d = true ->
  0 <= dt < 10 * 60 * 1000 ->
  let st1 := (loadProfileWithCache backend userId 0 st).2 in
  (loadProfileWithCache backend userId 0 st).1 = Resolved /\
  profile st1 = Some d /\
  queries st1 = S (queries st) /\
  let st2 :=
    mkAuth (profile st1) (at_time (clock (world st1) + dt) (world st1))
      (queries st1) (waited st1) in
  loadProfileWithCache later userId 0 st2 = (Resolved, st2).
Proof.
  intros Hs Hq Hdata Htruthy Hid Hdt.
  assert (Hrun : loadProfileWithCache backend userId 0 st
                 = (Resolved,
                    mkAuth (Some d)
                      (set CACHE_CONFIGS "profile" d
                         (at_time (clock (world st) + (backend 0%nat).2) (world st))).2
                      (S (queries st)) (waited st))).
  { unfold loadProfileWithCache. simpl.
    rewrite get_cases, Hs, getAge_cases, Hs. simpl.
    destruct (backend 0%nat) as [a0 took0]. simpl in *. subst a0. simpl.
    rewrite Htruthy. reflexivity. }
  cbv zeta. rewrite Hrun. cbn [fst snd profile queries world waited].
  split; [reflexivity|]. split; [reflexivity|]. split; [reflexivity|].
  rewrite set_accepted by exact Hq.
  set (t1 := clock (world st) + (backend 0%nat).2).
  unfold loadProfileWithCache.
  rewrite (cache_hit later userId _ 0 (mkEntry d t1 "1.1" (t1 + 45 * 60 * 1000))).
  - reflexivity.
  - simpl. apply lookup_insert_eq.
  - reflexivity.
  - simpl. lia.
  - simpl. lia.
  - exact Htruthy.
  - exact Hid.
Qed.

Lemma fetched_profile_is_cached_witness :
  profile (loadProfileWithCache (always (Data profile_u1)) "u1" 0 signed_out).2
    = Some profile_u1.
Proof.
  destruct (fetched_profile_is_cached (always (Data profile_u1)) (always (Data JNull))
              "u1" profile_u1 signed_out 0
              eq_refl eq_refl eq_refl eq_refl eq_refl ltac:(lia))
    as (_ & Hprofile & _).
  exact Hprofile.
Defined.

Lemma attempt_asks_when_cache_invalid
    (backend : Backend) (userId : string) (left retryCount : nat) (st : AuthState)
    (cached : json) (age : option Z) (w1 : World) :
  get CACHE_CONFIGS "profile" (world st) = (Return cached, w1) ->
  getAge "profile" w1 = (Return age, w1) ->
  isCacheValid cached userId age = false ->
  (S (queries st) <= queries (attempt backend userId left retryCount st).2)%nat.
Proof.
  intros Hget Hage Hinvalid.
  destruct left as [|n]; simpl; rewrite Hget, Hage, Hinvalid;
    clear Hget Hage Hinvalid;
    destruct (backend retryCount) as [answer took];
    (destruct (failure answer) as [message|]; [|simpl; lia]).
  - destruct (get CACHE_CONFIGS "profile" _) as [fallbackCache w4].
    destruct (_ && _); simpl; lia.
  - destruct (isTransientError message).
    + match goal with |- context [attempt backend userId n (S retryCount) ?st1] =>
        pose proof (attempt_bounded backend userId n (S retryCount) st1) as H end.
      cbv zeta in H. simpl in H. lia.
    + destruct (get CACHE_CONFIGS "profile" _) as [fallbackCache w4].
      destruct (_ && _); simpl; lia.
Qed.

Lemma prefix_app (a b s : string) :
  String.prefix (a +:+ b) s = true -> String.prefix a s = true.
Proof.
  revert s. induction a as [|c a IH]; intros s.
  - intros _. destruct s; reflexivity.
  - change (String c a +:+ b) with (String c (a +:+ b)).
    destruct s as [|c' s]; simpl; [discriminate|].
    destruct (Ascii.ascii_dec c c'); [apply IH | discriminate].
Qed.

Lemma signOut_world (st : AuthState) :
  forall j : string,
    storage (world (signOut_cleanup st)) !! j
      = if String.prefix prefix j || String.eqb j "regina_online_status"
           || String.eqb j "regina_session_id"
        then None else storage (world st) !! j.
Proof.
  intros j. unfold signOut_cleanup. cbn [world].
  destruct (CacheManagerRestProofs.clearAll_run
              (invalidate "profile" (world st)).2) as (s & Hrun & Hs).
  rewrite Hrun. unfold localStorage_removeItem. cbn [snd storage with_storage].
  destruct (String.eqb_spec j "regina_session_id") as [->|Hn1].
  { rewrite lookup_delete_eq, orb_true_r. reflexivity. }
  rewrite lookup_delete_ne by congruence.
  destruct (String.eqb_spec j "regina_online_status") as [->|Hn2].
  { rewrite lookup_delete_eq. reflexivity. }
  rewrite lookup_delete_ne by congruence.
  rewrite Hs, !orb_false_r. destruct (String.prefix prefix j) eqn:Hp; [reflexivity|].
  simpl. apply lookup_delete_ne. intros <-. rewrite prefix_prefixed in Hp. discriminate.
Qed.

(** X29: After the cleanup of [signOut] no profile is held, every cache entry
    and both status slots are gone while the other slots of the store
    stay, and the next profile load cannot be answered from the cache: it
    sends at least one query. *)
Theorem signOut_leaves_no_cache
    (cfg : gmap string CacheConfig) (key : string) (backend : Backend) (userId : string)
    (st : AuthState) :
  let st' := signOut_cleanup st in
  profile st' = None /\
  get cfg key (world st') = (Return JNull, world st') /\
  (forall j : string,
     String.prefix "regina_" j = false ->
     storage (world st') !! j = storage (world st) !! j) /\
  storage (world st') !! "regina_online_status" = None /\
  storage (world st') !! "regina_session_id" = None /\
  (S (queries st') <= queries (loadProfileWithCache backend userId 0 st').2)%nat.
Proof.
  cbv zeta. pose proof (signOut_world st) as Hw.
  assert (Hcache : forall k : string,
            storage (world (signOut_cleanup st)) !! (prefix +:+ k) = None).
  { intros k. rewrite Hw, prefix_prefixed. reflexivity. }
  split; [reflexivity|]. split; [rewrite get_cases, Hcache; reflexivity|].
  split; [|split; [rewrite Hw; reflexivity|split; [rewrite Hw; reflexivity|]]].
  - intros j Hj. rewrite Hw.
    assert (Hp : String.prefix prefix j = false).
    { destruct (String.prefix prefix j) eqn:Hp; [|reflexivity].
      apply (prefix_app "regina_" "cache_") in Hp. congruence. }
    rewrite Hp.
    destruct (String.eqb_spec j "regina_online_status") as [->|_]; [discriminate|].
    destruct (String.eqb_spec j "regina_session_id") as [->|_]; [discriminate|].
    reflexivity.
  - unfold loadProfileWithCache.
    apply (attempt_asks_when_cache_invalid _ _ _ _ _ JNull None (world (signOut_cleanup st))).
    + rewrite get_cases, Hcache. reflexivity.
    + rewrite getAge_cases, Hcache. reflexivity.
    + reflexivity.
Qed.

Lemma signOut_leaves_no_cache_witness :
  storage (world (signOut_cleanup
                    (mkAuth None (mkWorld {[ "theme" := CorruptText ]} 0 false true []) 0 0)))
    !! "theme" = Some CorruptText.
Proof.
  destruct (signOut_leaves_no_cache CACHE_CONFIGS "profile" (always (Data JNull)) "u1"
              (mkAuth None (mkWorld {[ "theme" := CorruptText ]} 0 false true []) 0 0))
    as (_ & _ & Hkeep & _).
  rewrite Hkeep; reflexivity.
Defined.

Lemma prefix_iff (p s : string) :
  String.prefix p s = true <-> exists b : string, s = p +:+ b.
Proof.
  revert s. induction p as [|c p IH]; intros s.
  - split; [intros _; exists s; reflexivity | intros _; destruct s; reflexivity].
  - destruct s as [|c' s]; simpl.
    + split; [discriminate | intros (b & Hb); discriminate].
    + destruct (Ascii.ascii_dec c c') as [->|Hne].
      * rewrite IH. split; intros (b & Hb); exists b.
        -- rewrite Hb. reflexivity.
        -- change (String c' p +:+ b) with (String c' (p +:+ b)) in Hb. congruence.
      * split; [discriminate|]. intros (b & Hb).
        change (String c p +:+ b) with (String c (p +:+ b)) in Hb. congruence.
Qed.

Lemma includes_iff (needle s : string) :
  includes needle s = true <-> exists a b : string, s = a +:+ needle +:+ b.
Proof.
  induction s as [|c s IH].
  - change (includes needle "") with (String.prefix needle "" || false).
    rewrite orb_false_r, prefix_iff. split.
    + intros (b & Hb). exists "", b. exact Hb.
    + intros (a & b & Hab). destruct a as [|c a]; [exists b; exact Hab | discriminate].
  - change (includes needle (String c s))
      with (String.prefix needle (String c s) || includes needle s).
    rewrite orb_true_iff, prefix_iff, IH. split.
    + intros [(b & Hb) | (a & b & Hab)].
      * exists "", b. exact Hb.
      * exists (String c a), b. rewrite Hab. reflexivity.
    + intros (a & b & Hab). destruct a as [|c' a].
      * left. exists b. exact Hab.
      * right. exists a, b.
        change (String c' a +:+ needle +:+ b) with (String c' (a +:+ needle +:+ b)) in Hab.
        congruence.
Qed.

(** X30: An error is classed as transient exactly when its message contains,
    in this spelling, one of the words 'timeout', 'connection', 'fetch' and
    'network'. *)
Theorem isTransientError_iff (message : string) :
  isTransientError message = true <->
  exists word : string,
    word ∈ ["timeout"; "connection"; "fetch"; "network"] /\
    exists a b : string, message = a +:+ word +:+ b.
Proof.
  unfold isTransientError. rewrite !orb_true_iff, !includes_iff. split.
  - intros [[[H|H]|H]|H]; eexists; (split; [|exact H]);
      repeat first [apply list_elem_of_here | apply list_elem_of_further].
  - intros (word & Hword & H).
    repeat (apply elem_of_cons in Hword as [-> | Hword]; [tauto|]).
    apply not_elem_of_nil in Hword. contradiction.
Qed.

(** Which failures the loader retries does not depend on what the backend
    wrote for the three codes it knows: 'not found' (PGRST116),
    'connect' (PGRST301) and 'permissions' (42501) are never retried, and
    an aborted request always is. *)
Theorem known_codes_are_not_retried (code name message : string) :
  (code ∈ ["PGRST116"; "PGRST301"; "42501"] ->
   exists m : string,
     failure (Failed code message) = Some m /\ isTransientError m = false) /\
  (name = "AbortError" ->
   exists m : string,
     failure (Rejected name message) = Some m /\ isTransientError m = true).
Proof.
  split.
  - intros Hcode.
    repeat (apply elem_of_cons in Hcode as [-> | Hcode];
            [eexists; split; reflexivity|]).
    apply not_elem_of_nil in Hcode. contradiction.
  - intros ->. eexists. split; reflexivity.
Qed.

Lemma known_codes_are_not_retried_witness :
  failure (Failed "PGRST301" "connection refused") = Some "Unable to connect to database" /\
  isTransientError "Unable to connect to database" = false.
Proof.
  destruct (known_codes_are_not_retried "PGRST301" "x" "connection refused") as (Hcode & _).
  destruct Hcode as (m & Hm & Hnot).
  - apply list_elem_of_further, list_elem_of_here.
  - simpl in Hm. injection Hm as <-. split; [reflexivity | exact Hnot].
Defined.

End AuthProofs.
